(** * Tile materialization and cache-aside pipeline of catmaid/tileserver

    A shallow embedding of [tensorstore_server.py] (the Tile Materializer)
    and [tile_server.py] (the Tile Edge).  Python integers are [Z], the
    Redis store is a finite map from keys to byte strings, exceptions are
    values of [PyExc], and the handlers run in a small state-and-exception
    monad over the [World] the two services share. *)

From Stdlib Require Import ZArith List Lia Ascii.
From stdpp Require Import base gmap strings list pretty.

Local Open Scope Z_scope.

(** ** Python values *)

Definition bytes := list Byte.byte.

(** The exceptions the two modules raise or let through. *)
Inductive PyExc :=
| ValueError (msg : string)
| KeyError (key : Z)
| TypeError (msg : string)
| Exception (arg : PyExc)
| HTTPException (status_code : Z) (detail : string).

(** [str(e)]: the message of the exception; [Exception(e)] prints as [e]
    and a [KeyError] prints its key. *)
Fixpoint str (e : PyExc) : string :=
  match e with
  | ValueError msg => msg
  | KeyError key => pretty key
  | TypeError msg => msg
  | Exception arg => str arg
  | HTTPException status_code detail => pretty status_code +:+ ": " +:+ detail
  end.

Inductive result (A : Type) :=
| Ok (a : A)
| Raise (e : PyExc).
Arguments Ok {A} a.
Arguments Raise {A} e.

Definition is_ok {A} (x : result A) : bool :=
  match x with Ok _ => true | Raise _ => false end.

(** ** Arrays *)

(** The element type of an array; [dtype_name] is what [str(dtype)] prints. *)
Record DType := { dtype_name : string }.

Definition np_uint8 : DType := {| dtype_name := "uint8" |}.

(** A two-dimensional array: its shape, its element type and its rows. *)
Record ndarray := {
  nd_shape : Z * Z;
  nd_dtype : DType;
  nd_data : list (list Z)
}.

(** [a[i, j]] for indices inside the array. *)
Definition nd_get (a : ndarray) (i j : Z) : option Z :=
  if (0 <=? i) && (0 <=? j)
  then nd_data a !! Z.to_nat i ≫= λ row, row !! Z.to_nat j
  else None.

(** [np.zeros((n, m), dtype)]; numpy rejects negative dimensions. *)
Definition np_zeros (shape : Z * Z) (dtype : DType) : result ndarray :=
  let '(n, m) := shape in
  if (n <? 0) || (m <? 0)
  then Raise (ValueError "negative dimensions are not allowed")
  else Ok {| nd_shape := (n, m);
             nd_dtype := dtype;
             nd_data := replicate (Z.to_nat n) (replicate (Z.to_nat m) 0) |}.

(** [a.T] *)
Definition T (a : ndarray) : ndarray :=
  let '(n, m) := nd_shape a in
  {| nd_shape := (m, n);
     nd_dtype := nd_dtype a;
     nd_data :=
       (λ j, (λ i, default 0 (nd_get a i j)) <$> seqZ 0 n) <$> seqZ 0 m |}.

(** ** Volume Access *)

(** One opened scale of the volume with the channel axis fixed: its
    [x, y, z] shape, its element type and its voxels. *)
Record Volume := {
  vol_shape : Z * Z * Z;
  vol_dtype : DType;
  voxel : Z → Z → Z → Z
}.

(** ** The shared world *)

(** What a handler does to the outside: reads of the volume and writes to
    the store, most recent first. *)
Inductive Effect :=
| VolumeRead (zoom x0 x1 y0 y1 z : Z)
| CacheSet (key : string) (value : bytes).

Record World := {
  r : gmap string bytes;
  effects : list Effect
}.

Definition is_read (e : Effect) : bool :=
  match e with VolumeRead _ _ _ _ _ _ => true | CacheSet _ _ => false end.

Definition is_set (key : string) (e : Effect) : bool :=
  match e with
  | VolumeRead _ _ _ _ _ _ => false
  | CacheSet k _ => bool_decide (k = key)
  end.

Definition volume_reads (w : World) : list Effect := filter is_read (effects w).
Definition cache_sets (key : string) (w : World) : list Effect :=
  filter (is_set key) (effects w).

(** ** The handler monad: state of the world plus exceptions *)

Definition M (A : Type) : Type := World → result A * World.

Definition ret {A} (a : A) : M A := λ w, (Ok a, w).
Definition raise {A} (e : PyExc) : M A := λ w, (Raise e, w).
Definition bind {A B} (c : M A) (k : A → M B) : M B :=
  λ w, match c w with
       | (Ok a, w') => k a w'
       | (Raise e, w') => (Raise e, w')
       end.
Definition lift {A} (x : result A) : M A := λ w, (x, w).
(** [try: c except Exception as e: h e] *)
Definition try_except {A} (c : M A) (h : PyExc → M A) : M A :=
  λ w, match c w with
       | (Ok a, w') => (Ok a, w')
       | (Raise e, w') => h e w'
       end.

Notation "x <- c ;; k" := (bind c (λ x, k))
  (at level 100, c at next level, right associativity).
Notation "c ;;; k" := (bind c (λ _, k))
  (at level 100, right associativity).

(** [d[key]] on a dict keyed by integers. *)
Definition getitem {V} (d : gmap Z V) (key : Z) : M V :=
  match d !! key with
  | Some v => ret v
  | None => raise (KeyError key)
  end.

(** [r.exists(key)], [r.set(key, value)] and [r.get(key)]. *)
Definition r_exists (key : string) : M bool :=
  λ w, (Ok (bool_decide (is_Some (r w !! key))), w).
Definition r_set (key : string) (value : bytes) : M unit :=
  λ w, (Ok (), {| r := <[key := value]> (r w);
                  effects := CacheSet key value :: effects w |}).
Definition r_get (key : string) : M (option bytes) :=
  λ w, (Ok (r w !! key), w).

(** [await ds[x0:x1, y0:y1, z].read()]: the intervals have to lie inside
    the domain of the volume and [z] has to be one of its slices; the
    result has axes [(x, y)]. *)
Definition ts_read (zoom : Z) (ds : Volume) (x0 x1 y0 y1 z : Z) : M ndarray :=
  let '(sx, sy, sz) := vol_shape ds in
  if (0 <=? x0) && (x0 <=? x1) && (x1 <=? sx)
     && (0 <=? y0) && (y0 <=? y1) && (y1 <=? sy)
     && (0 <=? z) && (z <? sz)
  then λ w,
    (Ok {| nd_shape := (x1 - x0, y1 - y0);
           nd_dtype := vol_dtype ds;
           nd_data :=
             (λ x, (λ y, voxel ds x y z) <$> seqZ y0 (y1 - y0))
               <$> seqZ x0 (x1 - x0) |},
     {| r := r w; effects := VolumeRead zoom x0 x1 y0 y1 z :: effects w |})
  else raise (ValueError "index out of the valid range").

(** ** [settings] and the image codec *)

(** The options of [settings.py] the two modules read.
    [TENSORSTORE_SPEC] is given by what opening it at a scale index and
    taking channel 0 yields. *)
Record Settings := {
  TILE_SIZE : Z;
  TENSORSTORE_SCALE_INDEX : list Z;
  TENSORSTORE_SPEC : Z → Volume;
  PREFETCH_ADJACENT_Z : Z;
  PREFETCH_HIGHERRES_SCALE_INDEX : bool
}.

(** [range(n)] *)
Definition range (n : Z) : list Z := seqZ 0 n.

(** ** [class AsyncTensorStoreServer] *)

Record AsyncTensorStoreServer := {
  dataset_3d : gmap Z Volume;
  shapes : gmap Z (Z * Z * Z);
  dtypes : gmap Z DType;
  tile_size : Z
}.

(** [__init__]: one handle, shape and dtype per configured zoom level. *)
Definition AsyncTensorStoreServer_init
    (tensorstore_spec : Z → Volume) (scale_index : list Z) (tile_size : Z)
  : AsyncTensorStoreServer :=
  let self :=
    foldl (λ self zoom,
             let ds := tensorstore_spec zoom in
             {| dataset_3d := <[zoom := ds]> (dataset_3d self);
                shapes := <[zoom := vol_shape ds]> (shapes self);
                dtypes := <[zoom := vol_dtype ds]> (dtypes self);
                tile_size := 0 |})
          {| dataset_3d := ∅; shapes := ∅; dtypes := ∅; tile_size := 0 |}
          scale_index in
  {| dataset_3d := dataset_3d self;
     shapes := shapes self;
     dtypes := dtypes self;
     tile_size := tile_size |}.

Definition z_bounds_msg (z sz : Z) : string :=
  "Tile out of z bounds: Request " +:+ pretty z +:+ " for [0," +:+ pretty sz +:+ "]".
Definition x_bounds_msg (start_x sx : Z) : string :=
  "Tile out of x bounds: Request " +:+ pretty start_x
    +:+ " larger than " +:+ pretty sx +:+ "]".
Definition y_bounds_msg (start_y sy : Z) : string :=
  "Tile out of y bounds: Request " +:+ pretty start_y
    +:+ " larger than " +:+ pretty sy +:+ "]".

(** [get_2d_tile(self, col, row, z, zoom)] *)
Definition get_2d_tile (self : AsyncTensorStoreServer) (col row z zoom : Z)
  : M ndarray :=
  let start_x := col * tile_size self in
  let start_y := row * tile_size self in
  shape <- getitem (shapes self) zoom ;;
  let '(sx, sy, sz) := shape in
  if (start_x >? sx) || (start_y >? sy) then
    lift (np_zeros (tile_size self, tile_size self) np_uint8)
  else
    let end_x := Z.min (start_x + tile_size self) sx in
    let end_y := Z.min (start_y + tile_size self) sy in
    if (z <? 0) || (z >=? sz) then raise (ValueError (z_bounds_msg z sz))
    else if start_x >=? sx then raise (ValueError (x_bounds_msg start_x sx))
    else if start_y >=? sy then raise (ValueError (y_bounds_msg start_y sy))
    else
      ds <- getitem (dataset_3d self) zoom ;;
      tile <- ts_read zoom ds start_x end_x start_y end_y z ;;
      ret (T tile).

(** ** HTTP *)

Inductive Body :=
| JsonNull
| JsonDetail (detail : string)
| JsonVolumeInfo (shape : Z * Z * Z) (dtype : string) (tile_size : Z)
| PlainText (text : string)
| Stream (media_type : string) (content : bytes).

Record Response := { status : Z; body : Body }.

(** What the framework answers for the outcome of a handler: the value
    as JSON, the status and detail of an [HTTPException], and
    500 Internal Server Error for any other exception. *)
Definition respond {A} (to_body : A → Body) (x : result A) : Response :=
  match x with
  | Ok a => {| status := 200; body := to_body a |}
  | Raise (HTTPException status_code detail) =>
      {| status := status_code; body := JsonDetail detail |}
  | Raise _ => {| status := 500; body := PlainText "Internal Server Error" |}
  end.

(** [response.json()] of the [requests] library. *)
Definition json (resp : Response) : result Body :=
  match body resp with
  | PlainText _ | Stream _ _ => Raise (ValueError "Expecting value")
  | b => Ok b
  end.

(** A task added to [BackgroundTasks]: a coroutine function and its
    arguments. *)
Record BackgroundTask := {
  bt_func : Z → Z → Z → Z → M unit;
  bt_args : Z * Z * Z * Z
}.

Definition call_task (t : BackgroundTask) : M unit :=
  let '(a, b, c, d) := bt_args t in bt_func t a b c d.

(** [BackgroundTasks.__call__]: [for task in self.tasks: await task()],
    run by the framework once the response has been sent. *)
Fixpoint run_background_tasks (tasks : list BackgroundTask) : M unit :=
  match tasks with
  | [] => ret ()
  | task :: tasks => call_task task ;;; run_background_tasks tasks
  end.

(** The cache key of a tile, [f"/{zoom}/{z}/{row}/{col}.png"]. *)
Definition tile_key (zoom z row col : Z) : string :=
  "/" +:+ pretty zoom +:+ "/" +:+ pretty z +:+ "/" +:+ pretty row
      +:+ "/" +:+ pretty col +:+ ".png".

(** [free_of c s]: the character [c] does not occur in [s]. *)
Fixpoint free_of (c : Ascii.ascii) (s : string) : Prop :=
  match s with
  | EmptyString => True
  | String a s' => a ≠ c ∧ free_of c s'
  end.

Section Services.

Context (settings : Settings).
(** [Image.fromarray(tile)] saved as PNG into a buffer, and its bytes. *)
Context (png_encode : ndarray → result bytes).

(** ** tensorstore_server.py *)

Definition tile_server : AsyncTensorStoreServer :=
  AsyncTensorStoreServer_init (TENSORSTORE_SPEC settings)
    (TENSORSTORE_SCALE_INDEX settings) (TILE_SIZE settings).

Definition volume_info (zoom : Z) : M Body :=
  shape <- getitem (shapes tile_server) zoom ;;
  dtype <- getitem (dtypes tile_server) zoom ;;
  ret (JsonVolumeInfo shape (dtype_name dtype) (tile_size tile_server)).

Definition make_my_tile (zoom z row col : Z) : M unit :=
  let key := tile_key zoom z row col in
  present <- r_exists key ;;
  if present : bool then ret ()
  else
    try_except
      (tile <- get_2d_tile tile_server col row z zoom ;;
       img_byte_arr <- lift (png_encode tile) ;;
       r_set key img_byte_arr)
      (λ e, raise (Exception e)).

Definition prefetch_task (zoom z row col : Z) : BackgroundTask :=
  {| bt_func := make_my_tile; bt_args := (zoom, z, row, col) |}.

(** The tasks the loop of [make_tile] adds for a prefetch count [k], in
    the order it adds them. *)
Definition z_neighbours (zoom z row col k : Z) : list BackgroundTask :=
  flat_map (λ i, [prefetch_task zoom (z + i) row col;
                  prefetch_task zoom (z - i) row col])
           (range k).

(** The handler gets the task list of the request and returns it with the
    tasks it added. *)
Definition make_tile (row col z zoom : Z) (background_tasks : list BackgroundTask)
  : M (list BackgroundTask) :=
  try_except (make_my_tile zoom z row col)
    (λ e, raise (HTTPException 404 (str e))) ;;;
  let background_tasks :=
    if PREFETCH_ADJACENT_Z settings >? 0 then
      foldl (λ tasks i,
               tasks ++ [prefetch_task zoom (z + i) row col]
                     ++ [prefetch_task zoom (z - i) row col])
            background_tasks (range (PREFETCH_ADJACENT_Z settings))
    else background_tasks in
  let background_tasks :=
    if PREFETCH_HIGHERRES_SCALE_INDEX settings then background_tasks
    else background_tasks in
  ret background_tasks.

(** [GET /volume_info/{zoom}] on the Materializer. *)
Definition app_volume_info (zoom : Z) (w : World) : Response * World :=
  let '(x, w') := volume_info zoom w in (respond id x, w').

(** [GET /make_tile/{zoom}/{z}/{row}/{col}.png] on the Materializer: the
    response is that of the handler; the tasks it scheduled run after it. *)
Definition app_make_tile (zoom z row col : Z) (w : World) : Response * World :=
  match make_tile row col z zoom [] w with
  | (Ok tasks, w') =>
      (respond (λ _, JsonNull) (Ok tasks), (run_background_tasks tasks w').2)
  | (Raise e, w') => (respond (λ _ : list BackgroundTask, JsonNull) (Raise e), w')
  end.

(** ** tile_server.py *)

(** [requests.get(url)] for the two Materializer routes. *)
Definition requests_get_make_tile (zoom z row col : Z) : M Response :=
  λ w, let '(resp, w') := app_make_tile zoom z row col w in (Ok resp, w').
Definition requests_get_volume_info (zoom : Z) : M Response :=
  λ w, let '(resp, w') := app_volume_info zoom w in (Ok resp, w').

(** [io.BytesIO(img_bytes)]: [None] gives the empty buffer. *)
Definition BytesIO (initial_bytes : option bytes) : bytes :=
  default [] initial_bytes.

Definition get_tile (row col z zoom : Z) : M Body :=
  let k := tile_key zoom z row col in
  resp <- requests_get_make_tile zoom z row col ;;
  _ <- lift (json resp) ;;
  img_bytes <- r_get k ;;
  ret (Stream "image/png" (BytesIO img_bytes)).

Definition get_volume_info (zoom : Z) : M Body :=
  resp <- requests_get_volume_info zoom ;;
  lift (json resp).

(** [GET /tile/{zoom}/{z}/{row}/{col}.png] and [GET /volume-info/{zoom}]
    on the Edge. *)
Definition edge_get_tile (zoom z row col : Z) (w : World) : Response * World :=
  let '(x, w') := get_tile row col z zoom w in (respond id x, w').
Definition edge_get_volume_info (zoom : Z) (w : World) : Response * World :=
  let '(x, w') := get_volume_info zoom w in (respond id x, w').

End Services.

(** ** Sample deployments

    The volume of the end-to-end example, [600 x 600 x 10] voxels of 8
    bits cut into tiles of 256 pixels; and a small deployment for running
    the handlers: [10 x 10 x 4] voxels of 8 bits at zoom 0, a scale of
    64-bit voxels at zoom 1, tiles of 4 pixels, two z-neighbours
    prefetched on each side. *)

Definition end_to_end_volume : Volume :=
  {| vol_shape := (600, 600, 10);
     vol_dtype := np_uint8;
     voxel := λ x y z, (x + 2 * y + 3 * z) `mod` 256 |}.

Definition end_to_end_settings : Settings :=
  {| TILE_SIZE := 256;
     TENSORSTORE_SCALE_INDEX := [0];
     TENSORSTORE_SPEC := λ _, end_to_end_volume;
     PREFETCH_ADJACENT_Z := 0;
     PREFETCH_HIGHERRES_SCALE_INDEX := false |}.

Definition sample_volume : Volume :=
  {| vol_shape := (10, 10, 4);
     vol_dtype := np_uint8;
     voxel := λ x y z, x + 10 * y + 100 * z |}.

Definition sample_volume_u64 : Volume :=
  {| vol_shape := (5, 5, 4);
     vol_dtype := {| dtype_name := "uint64" |};
     voxel := λ x y z, x + 1000 * y + 1000000 * z |}.

Definition sample_settings : Settings :=
  {| TILE_SIZE := 4;
     TENSORSTORE_SCALE_INDEX := [0; 1];
     TENSORSTORE_SPEC := λ zoom, if zoom =? 0 then sample_volume
                                 else sample_volume_u64;
     PREFETCH_ADJACENT_Z := 2;
     PREFETCH_HIGHERRES_SCALE_INDEX := false |}.

(** The small deployment with a prefetch count of 1. *)
Definition sample_settings_one : Settings :=
  {| TILE_SIZE := 4;
     TENSORSTORE_SCALE_INDEX := [0; 1];
     TENSORSTORE_SPEC := λ zoom, if zoom =? 0 then sample_volume
                                 else sample_volume_u64;
     PREFETCH_ADJACENT_Z := 1;
     PREFETCH_HIGHERRES_SCALE_INDEX := true |}.

(** The small volume cut into tiles of 5 pixels, whose corners fall on
    its edge. *)
Definition sample_settings_five : Settings :=
  {| TILE_SIZE := 5;
     TENSORSTORE_SCALE_INDEX := [0];
     TENSORSTORE_SPEC := λ _, sample_volume;
     PREFETCH_ADJACENT_Z := 0;
     PREFETCH_HIGHERRES_SCALE_INDEX := false |}.

(** A stand-in for the PNG encoder: the pixels of an 8-bit tile row by
    row; like the imaging library, it rejects 64-bit integer arrays. *)
Definition sample_encode (tile : ndarray) : result bytes :=
  if bool_decide (dtype_name (nd_dtype tile) = dtype_name np_uint8)
  then Ok ((λ p, default Byte.x00 (Byte.of_N (Z.to_N (p `mod` 256))))
             <$> concat (nd_data tile))
  else Raise (TypeError "Cannot handle this data type").

Definition empty_world : World := {| r := ∅; effects := [] |}.

(** A world whose store already holds bytes under the key of the
    out-of-range address [(0, 7, 0, 0)]. *)
Definition warm_world : World :=
  {| r := {[ tile_key 0 7 0 0 := [Byte.x89; Byte.x50] ]}; effects := [] |}.

(** Decide the integer comparisons of the goal, closing the branches the
    hypotheses rule out. *)
Ltac zbool :=
  repeat match goal with
    | |- context [?a >? ?b] => rewrite (Z.gtb_ltb a b)
    | |- context [?a >=? ?b] => rewrite (Z.geb_leb a b)
    end;
  repeat match goal with
    | |- context [?a <? ?b] => destruct (Z.ltb_spec a b); try lia
    | |- context [?a <=? ?b] => destruct (Z.leb_spec a b); try lia
    end;
  simpl.

(** * Properties *)

(** ** The handles built by [__init__] *)

Lemma init_fold_lookup (spec : Z → Volume) (zooms : list Z)
    (acc : AsyncTensorStoreServer) (zoom : Z) :
  let step := λ (self : AsyncTensorStoreServer) (zoom : Z),
    {| dataset_3d := <[zoom := spec zoom]> (dataset_3d self);
       shapes := <[zoom := vol_shape (spec zoom)]> (shapes self);
       dtypes := <[zoom := vol_dtype (spec zoom)]> (dtypes self);
       tile_size := 0 |} in
  let self := foldl step acc zooms in
  dataset_3d self !! zoom
    = (if decide (zoom ∈ zooms) then Some (spec zoom) else dataset_3d acc !! zoom)
  ∧ shapes self !! zoom
    = (if decide (zoom ∈ zooms) then Some (vol_shape (spec zoom))
       else shapes acc !! zoom)
  ∧ dtypes self !! zoom
    = (if decide (zoom ∈ zooms) then Some (vol_dtype (spec zoom))
       else dtypes acc !! zoom).
Proof.
  intros step. revert acc.
  induction zooms as [|a zooms IH]; intros acc; simpl.
  - destruct (decide (zoom ∈ [])) as [Hin|Hin]; [set_solver | done].
  - destruct (IH (step acc a)) as (Hd & Hs & Ht).
    rewrite Hd, Hs, Ht. clear IH Hd Hs Ht. simpl.
    destruct (decide (zoom ∈ zooms)) as [Hin|Hin].
    + by rewrite !decide_True by (by apply list_elem_of_further).
    + destruct (decide (zoom = a)) as [->|Hne].
      * rewrite !decide_True by apply list_elem_of_here.
        by rewrite !lookup_insert_eq.
      * rewrite !decide_False by (by intros [?|?]%elem_of_cons).
        by rewrite !lookup_insert_ne.
Qed.

Section ServiceProperties.

Context (settings : Settings).
Context (png_encode : ndarray → result bytes).

Local Abbreviation server := (tile_server settings).
Local Abbreviation configured zoom := (zoom ∈ TENSORSTORE_SCALE_INDEX settings).

Lemma tile_server_tile_size : tile_size server = TILE_SIZE settings.
Proof. reflexivity. Qed.

Lemma tile_server_configured zoom :
  configured zoom →
  dataset_3d server !! zoom = Some (TENSORSTORE_SPEC settings zoom)
  ∧ shapes server !! zoom = Some (vol_shape (TENSORSTORE_SPEC settings zoom))
  ∧ dtypes server !! zoom = Some (vol_dtype (TENSORSTORE_SPEC settings zoom)).
Proof.
  intros Hin. unfold tile_server, AsyncTensorStoreServer_init. simpl.
  pose proof (init_fold_lookup (TENSORSTORE_SPEC settings)
                (TENSORSTORE_SCALE_INDEX settings)
                {| dataset_3d := ∅; shapes := ∅; dtypes := ∅; tile_size := 0 |}
                zoom) as H.
  simpl in H. by rewrite !decide_True in H.
Qed.

Lemma tile_server_not_configured zoom :
  ¬ configured zoom →
  dataset_3d server !! zoom = None
  ∧ shapes server !! zoom = None
  ∧ dtypes server !! zoom = None.
Proof.
  intros Hin. unfold tile_server, AsyncTensorStoreServer_init. simpl.
  pose proof (init_fold_lookup (TENSORSTORE_SPEC settings)
                (TENSORSTORE_SCALE_INDEX settings)
                {| dataset_3d := ∅; shapes := ∅; dtypes := ∅; tile_size := 0 |}
                zoom) as H.
  simpl in H. by rewrite !decide_False, !lookup_empty in H.
Qed.

(** ** Extraction *)

(** [get_2d_tile] does not look at the world: its outcome is fixed by its
    arguments, it leaves the store alone, and all it adds to the effects
    are reads of the volume, none of them when it raises. *)
Lemma get_2d_tile_frame (self : AsyncTensorStoreServer) (col row z zoom : Z) :
  ∃ (x : result ndarray) (pre : list Effect),
    Forall (λ e, is_read e = true) pre
    ∧ (is_ok x = false → pre = [])
    ∧ ∀ w, get_2d_tile self col row z zoom w
           = (x, {| r := r w; effects := pre ++ effects w |}).
Proof.
  unfold get_2d_tile, bind, getitem, lift, raise, ret.
  destruct (shapes self !! zoom) as [[[sx sy] sz]|].
  2: { exists (Raise (KeyError zoom)), [].
       split_and!; [constructor | done | by intros []]. }
  destruct ((col * tile_size self >? sx) || (row * tile_size self >? sy)).
  { exists (np_zeros (tile_size self, tile_size self) np_uint8), [].
    split_and!; [constructor | done | by intros []]. }
  destruct ((z <? 0) || (z >=? sz)).
  { eexists _, []. split_and!; [constructor | done | by intros []]. }
  destruct (col * tile_size self >=? sx).
  { eexists _, []. split_and!; [constructor | done | by intros []]. }
  destruct (row * tile_size self >=? sy).
  { eexists _, []. split_and!; [constructor | done | by intros []]. }
  destruct (dataset_3d self !! zoom) as [ds|].
  2: { exists (Raise (KeyError zoom)), [].
       split_and!; [constructor | done | by intros []]. }
  unfold ts_read, raise. destruct (vol_shape ds) as [[vx vy] vz].
  match goal with |- context [if ?c then _ else _] => destruct c end.
  - eexists (Ok _), [_]. split_and!; last by intros [].
    + by repeat constructor.
    + done.
  - eexists (Raise _), []. split_and!; [constructor | done | by intros []].
Qed.

Lemma get_2d_tile_store self col row z zoom w x w1 :
  get_2d_tile self col row z zoom w = (x, w1) →
  r w1 = r w
  ∧ (∀ key, cache_sets key w1 = cache_sets key w)
  ∧ (is_ok x = false → w1 = w).
Proof.
  destruct (get_2d_tile_frame self col row z zoom) as (x0 & pre & Hpre & Herr & Hrun).
  rewrite Hrun. intros [= <- <-]. simpl. split_and!.
  - done.
  - intros key. unfold cache_sets. simpl. rewrite filter_app.
    replace (filter (is_set key) pre) with (@nil Effect); [done|].
    clear -Hpre. induction Hpre as [|e pre He _ IH]; [done|].
    rewrite filter_cons. destruct e; [|done].
    rewrite decide_False; [done | simpl; by intros []].
  - intros Hx. rewrite (Herr Hx). by destruct w.
Qed.

(** ** The cache-aside steps of [make_my_tile] *)

Lemma make_my_tile_present zoom z row col w :
  is_Some (r w !! tile_key zoom z row col) →
  make_my_tile settings png_encode zoom z row col w = (Ok (), w).
Proof.
  intros Hk. unfold make_my_tile, bind, r_exists.
  by rewrite bool_decide_eq_true_2.
Qed.

Lemma make_my_tile_absent zoom z row col w :
  r w !! tile_key zoom z row col = None →
  make_my_tile settings png_encode zoom z row col w
  = match get_2d_tile server col row z zoom w with
    | (Ok tile, w1) =>
        match png_encode tile with
        | Ok png =>
            (Ok (), {| r := <[tile_key zoom z row col := png]> (r w1);
                       effects := CacheSet (tile_key zoom z row col) png
                                    :: effects w1 |})
        | Raise e => (Raise (Exception e), w1)
        end
    | (Raise e, w1) => (Raise (Exception e), w1)
    end.
Proof.
  intros Hk. unfold make_my_tile, bind, r_exists.
  rewrite bool_decide_eq_false_2 by (rewrite Hk; by intros [? ?]).
  unfold try_except, bind, lift, r_set, raise.
  destruct (get_2d_tile server col row z zoom w) as [[tile|e] w1]; [|done].
  by destruct (png_encode tile).
Qed.

(** ** The boundary policy of [get_2d_tile] *)

Lemma nd_get_zeros n m dtype i j :
  0 ≤ i < n → 0 ≤ j < m →
  ∃ a, np_zeros (n, m) dtype = Ok a
       ∧ nd_shape a = (n, m) ∧ nd_dtype a = dtype
       ∧ nd_get a i j = Some 0.
Proof.
  intros Hi Hj. unfold np_zeros. zbool.
  eexists; split_and!; try done.
  unfold nd_get; simpl. zbool.
  rewrite lookup_replicate_2 by lia. simpl.
  by rewrite lookup_replicate_2 by lia.
Qed.

Lemma nd_get_T a n m i j :
  nd_shape a = (n, m) → 0 ≤ i < m → 0 ≤ j < n →
  nd_get (T a) i j = Some (default 0 (nd_get a j i)).
Proof.
  intros Hs Hi Hj. unfold T. rewrite Hs. unfold nd_get at 1. simpl. zbool.
  rewrite list_lookup_fmap, lookup_seqZ_lt by lia. simpl.
  rewrite list_lookup_fmap, lookup_seqZ_lt by lia. simpl.
  by rewrite !Z2Nat.id by lia.
Qed.

(** C1 (amended).  At a configured zoom, a tile whose start corner lies
    beyond the volume ([col * tile_size > shape.x] or
    [row * tile_size > shape.y]) is extracted as an all-zero
    [tile_size x tile_size] array of 8-bit pixels, without an error and
    without reading the volume; and [make_my_tile], when the key is not in
    the store yet, encodes that blank tile and writes it under the key. *)
Theorem outside_tile_is_blank_and_cached zoom z row col sx sy sz w :
  zoom ∈ TENSORSTORE_SCALE_INDEX settings →
  vol_shape (TENSORSTORE_SPEC settings zoom) = (sx, sy, sz) →
  0 ≤ TILE_SIZE settings →
  col * TILE_SIZE settings > sx ∨ row * TILE_SIZE settings > sy →
  ∃ tile,
    get_2d_tile server col row z zoom w = (Ok tile, w)
    ∧ nd_shape tile = (TILE_SIZE settings, TILE_SIZE settings)
    ∧ nd_dtype tile = np_uint8
    ∧ (∀ i j, 0 ≤ i < TILE_SIZE settings → 0 ≤ j < TILE_SIZE settings →
              nd_get tile i j = Some 0)
    ∧ (r w !! tile_key zoom z row col = None →
       ∀ png, png_encode tile = Ok png →
         make_my_tile settings png_encode zoom z row col w
         = (Ok (), {| r := <[tile_key zoom z row col := png]> (r w);
                      effects := CacheSet (tile_key zoom z row col) png
                                   :: effects w |})).
Proof.
  intros Hzoom Hshape Hts Hout.
  destruct (tile_server_configured zoom Hzoom) as (_ & Hs & _).
  rewrite Hshape in Hs.
  assert (Hget : get_2d_tile server col row z zoom w
                 = (np_zeros (TILE_SIZE settings, TILE_SIZE settings) np_uint8, w)).
  { unfold get_2d_tile, bind, getitem, ret, lift. rewrite Hs.
    rewrite tile_server_tile_size.
    replace ((col * TILE_SIZE settings >? sx) || (row * TILE_SIZE settings >? sy))
      with true; [done|].
    symmetry. apply orb_true_iff. rewrite <- !Zgt_is_gt_bool. lia. }
  assert (Hz : ∃ tile, np_zeros (TILE_SIZE settings, TILE_SIZE settings) np_uint8
                       = Ok tile) by (unfold np_zeros; zbool; eauto).
  destruct Hz as [tile Hz]. exists tile. rewrite Hget, Hz. split_and!.
  - done.
  - unfold np_zeros in Hz. revert Hz. zbool. by intros [= <-].
  - unfold np_zeros in Hz. revert Hz. zbool. by intros [= <-].
  - intros i j Hi Hj.
    destruct (nd_get_zeros (TILE_SIZE settings) (TILE_SIZE settings) np_uint8 i j)
      as (a & Ha & _ & _ & Hg); [done..|].
    rewrite Hz in Ha. by injection Ha as ->.
  - intros Hk png Hpng. rewrite make_my_tile_absent by done.
    by rewrite Hget, Hz, Hpng.
Qed.

(** C2 (amended).  At a configured zoom, when [z] is outside
    [[0, shape.z)] and the start corner is not beyond the volume
    ([col * tile_size <= shape.x] and [row * tile_size <= shape.y]),
    extraction raises the [ValueError] whose message gives [z] and
    [shape.z], and reads nothing. *)
Theorem z_out_of_bounds_raises zoom z row col sx sy sz w :
  zoom ∈ TENSORSTORE_SCALE_INDEX settings →
  vol_shape (TENSORSTORE_SPEC settings zoom) = (sx, sy, sz) →
  col * TILE_SIZE settings ≤ sx →
  row * TILE_SIZE settings ≤ sy →
  ¬ (0 ≤ z < sz) →
  get_2d_tile server col row z zoom w
  = (Raise (ValueError ("Tile out of z bounds: Request " +:+ pretty z
                          +:+ " for [0," +:+ pretty sz +:+ "]")), w).
Proof.
  intros Hzoom Hshape Hx Hy Hz.
  destruct (tile_server_configured zoom Hzoom) as (_ & Hs & _).
  rewrite Hshape in Hs.
  unfold get_2d_tile, bind, getitem, ret, lift, raise. rewrite Hs.
  rewrite tile_server_tile_size. by zbool.
Qed.

(** C3.  For a tile address (non-negative [row] and [col]) at a
    configured zoom with [start_x = col * tile_size < shape.x],
    [start_y = row * tile_size < shape.y] and [z] in [[0, shape.z)],
    extraction reads the clipped rectangle once and returns a tile of
    [min(tile_size, shape.y - start_y)] rows and
    [min(tile_size, shape.x - start_x)] columns whose pixel at [(i, j)]
    is the voxel at [(start_x + j, start_y + i, z)]. *)
Theorem inside_tile_is_clipped_region zoom z row col sx sy sz w :
  zoom ∈ TENSORSTORE_SCALE_INDEX settings →
  vol_shape (TENSORSTORE_SPEC settings zoom) = (sx, sy, sz) →
  0 ≤ TILE_SIZE settings → 0 ≤ row → 0 ≤ col →
  col * TILE_SIZE settings < sx →
  row * TILE_SIZE settings < sy →
  0 ≤ z < sz →
  let start_x := col * TILE_SIZE settings in
  let start_y := row * TILE_SIZE settings in
  let end_x := Z.min (start_x + TILE_SIZE settings) sx in
  let end_y := Z.min (start_y + TILE_SIZE settings) sy in
  ∃ tile,
    get_2d_tile server col row z zoom w
    = (Ok tile, {| r := r w;
                   effects := VolumeRead zoom start_x end_x start_y end_y z
                                :: effects w |})
    ∧ nd_shape tile = (Z.min (TILE_SIZE settings) (sy - start_y),
                       Z.min (TILE_SIZE settings) (sx - start_x))
    ∧ nd_dtype tile = vol_dtype (TENSORSTORE_SPEC settings zoom)
    ∧ ∀ i j,
        0 ≤ i < Z.min (TILE_SIZE settings) (sy - start_y) →
        0 ≤ j < Z.min (TILE_SIZE settings) (sx - start_x) →
        nd_get tile i j
        = Some (voxel (TENSORSTORE_SPEC settings zoom) (start_x + j) (start_y + i) z).
Proof.
  intros Hzoom Hshape Hts Hrow Hcol Hx Hy Hz start_x start_y end_x end_y.
  destruct (tile_server_configured zoom Hzoom) as (Hd & Hs & _).
  rewrite Hshape in Hs.
  assert (0 ≤ start_x) by (by apply Z.mul_nonneg_nonneg).
  assert (0 ≤ start_y) by (by apply Z.mul_nonneg_nonneg).
  unfold get_2d_tile, bind, getitem, ret, lift, raise. rewrite Hs, Hd.
  rewrite tile_server_tile_size. fold start_x start_y. fold end_x end_y.
  unfold ts_read. rewrite Hshape.
  assert (Hex : end_x - start_x = Z.min (TILE_SIZE settings) (sx - start_x))
    by (unfold end_x; lia).
  assert (Hey : end_y - start_y = Z.min (TILE_SIZE settings) (sy - start_y))
    by (unfold end_y; lia).
  assert (end_x ≤ sx) by (unfold end_x; lia).
  assert (end_y ≤ sy) by (unfold end_y; lia).
  zbool.
  eexists. split_and!; [reflexivity | simpl; by rewrite Hex, Hey | done |].
  intros i j Hi Hj.
  erewrite nd_get_T; [|simpl; reflexivity|lia..].
  unfold nd_get; simpl. zbool.
  rewrite list_lookup_fmap, lookup_seqZ_lt by lia. simpl.
  rewrite list_lookup_fmap, lookup_seqZ_lt by lia. simpl.
  by rewrite !Z2Nat.id by lia.
Qed.

(** ** The cache-aside protocol *)

(** A call of [make_my_tile] that raises found the key missing and left
    the store as it was. *)
Lemma make_my_tile_raise_store zoom z row col w e w1 :
  make_my_tile settings png_encode zoom z row col w = (Raise e, w1) →
  r w !! tile_key zoom z row col = None
  ∧ r w1 = r w
  ∧ ∀ key, cache_sets key w1 = cache_sets key w.
Proof.
  intros Hrun.
  destruct (r w !! tile_key zoom z row col) as [v|] eqn:Hk.
  { rewrite make_my_tile_present in Hrun by (rewrite Hk; eauto). done. }
  split; [done|].
  rewrite make_my_tile_absent in Hrun by done.
  destruct (get_2d_tile server col row z zoom w) as [[tile|e0] w0] eqn:Hget;
    apply get_2d_tile_store in Hget as (Hr & Hsets & _).
  - destruct (png_encode tile); [done|]. by injection Hrun as _ <-.
  - by injection Hrun as _ <-.
Qed.

(** A call of [make_my_tile] that returns leaves the key in the store. *)
Lemma make_my_tile_ok_present zoom z row col w w1 :
  make_my_tile settings png_encode zoom z row col w = (Ok (), w1) →
  is_Some (r w1 !! tile_key zoom z row col).
Proof.
  intros Hrun.
  destruct (r w !! tile_key zoom z row col) as [v|] eqn:Hk.
  { rewrite make_my_tile_present in Hrun by (rewrite Hk; eauto).
    injection Hrun as <-. rewrite Hk; eauto. }
  rewrite make_my_tile_absent in Hrun by done.
  destruct (get_2d_tile server col row z zoom w) as [[tile|e0] w0]; [|done].
  destruct (png_encode tile) as [png|]; [|done].
  injection Hrun as <-. simpl. rewrite lookup_insert_eq. eauto.
Qed.

(** C4 (amended).  Of two calls of [make_my_tile] in a row for one
    address, the second leaves the store exactly as the first left it;
    and when the first call succeeded, the key is in the store, the
    second call returns at the existence check, and the world (its reads
    of the volume, its writes to the store) is untouched by it. *)
Theorem make_my_tile_twice zoom z row col w :
  let first := make_my_tile settings png_encode zoom z row col w in
  let second := make_my_tile settings png_encode zoom z row col first.2 in
  r second.2 = r first.2
  ∧ (first.1 = Ok () →
     is_Some (r first.2 !! tile_key zoom z row col)
     ∧ second = (Ok (), first.2)
     ∧ volume_reads second.2 = volume_reads first.2
     ∧ r second.2 !! tile_key zoom z row col
       = r first.2 !! tile_key zoom z row col).
Proof.
  intros first second.
  assert (Hok : first.1 = Ok () → second = (Ok (), first.2)).
  { intros H1. subst second. apply make_my_tile_present.
    apply make_my_tile_ok_present with w. fold first.
    destruct first as [x1 w1]. simpl in *. by subst. }
  split.
  - destruct first as [[[]|e] w1] eqn:Hfirst.
    { by rewrite (Hok eq_refl). }
    simpl in *. clear Hok.
    pose proof (make_my_tile_raise_store _ _ _ _ _ _ _ Hfirst) as (Hk & Hr & _).
    destruct second as [[[]|e2] w2] eqn:Hsecond; simpl.
    + exfalso. subst first second.
      rewrite make_my_tile_absent in Hfirst by done.
      rewrite make_my_tile_absent in Hsecond by (by rewrite Hr).
      destruct (get_2d_tile_frame server col row z zoom)
        as (x & pre & _ & _ & Hrun).
      rewrite Hrun in Hfirst, Hsecond.
      destruct x as [tile|]; [|done].
      by destruct (png_encode tile).
    + by apply make_my_tile_raise_store in Hsecond as (_ & ? & _).
  - intros H1. rewrite (Hok H1). simpl. split_and!; try done.
    apply make_my_tile_ok_present with w. fold first.
    destruct first as [x1 w1]. simpl in *. by subst.
Qed.

(** C6.  When the key is missing and extraction raises, or extraction
    succeeds and encoding raises, [make_my_tile] raises that error to its
    caller (as [Exception(e)], which prints as [e]) and nothing has been
    written: the store is as before and no [set] was issued for any key. *)
Theorem make_my_tile_error_no_write zoom z row col w :
  r w !! tile_key zoom z row col = None →
  (∀ e w1,
     get_2d_tile server col row z zoom w = (Raise e, w1) →
     make_my_tile settings png_encode zoom z row col w
       = (Raise (Exception e), w1)
     ∧ str (Exception e) = str e
     ∧ r w1 = r w
     ∧ ∀ key, cache_sets key w1 = cache_sets key w)
  ∧ (∀ tile e w1,
       get_2d_tile server col row z zoom w = (Ok tile, w1) →
       png_encode tile = Raise e →
       make_my_tile settings png_encode zoom z row col w
         = (Raise (Exception e), w1)
       ∧ str (Exception e) = str e
       ∧ r w1 = r w
       ∧ ∀ key, cache_sets key w1 = cache_sets key w).
Proof.
  intros Hk. split.
  - intros e w1 Hget.
    assert (Hrun : make_my_tile settings png_encode zoom z row col w
                   = (Raise (Exception e), w1))
      by (by rewrite make_my_tile_absent, Hget).
    split; [done|]. split; [done|].
    by apply make_my_tile_raise_store in Hrun as (_ & ? & ?).
  - intros tile e w1 Hget Henc.
    assert (Hrun : make_my_tile settings png_encode zoom z row col w
                   = (Raise (Exception e), w1))
      by (by rewrite make_my_tile_absent, Hget, Henc).
    split; [done|]. split; [done|].
    by apply make_my_tile_raise_store in Hrun as (_ & ? & ?).
Qed.

(** C10.  When the key of the address is already in the store,
    [make_my_tile] returns at once, whatever [zoom], [z], [row] and [col]
    are: [get_2d_tile] and its bounds checks are not reached, the volume is
    not read and the world is unchanged. *)
Theorem cached_key_skips_validation zoom z row col w :
  is_Some (r w !! tile_key zoom z row col) →
  make_my_tile settings png_encode zoom z row col w = (Ok (), w)
  ∧ volume_reads (make_my_tile settings png_encode zoom z row col w).2
    = volume_reads w.
Proof.
  intros Hk. by rewrite make_my_tile_present.
Qed.

(** ** Prefetch scheduling *)

Lemma add_tasks_fold zoom z row col (l : list Z) (bg : list BackgroundTask) :
  foldl (λ tasks i,
           tasks ++ [prefetch_task settings png_encode zoom (z + i) row col]
                 ++ [prefetch_task settings png_encode zoom (z - i) row col])
        bg l
  = bg ++ flat_map
            (λ i, [prefetch_task settings png_encode zoom (z + i) row col;
                   prefetch_task settings png_encode zoom (z - i) row col]) l.
Proof.
  revert bg. induction l as [|i l IH]; intros bg; simpl.
  - by rewrite app_nil_r.
  - rewrite IH. by rewrite <- !app_assoc.
Qed.

Lemma z_neighbours_length zoom z row col k :
  0 ≤ k → Z.of_nat (length (z_neighbours settings png_encode zoom z row col k)) = 2 * k.
Proof.
  intros Hk. unfold z_neighbours, range.
  assert (H : ∀ l : list Z,
             length (flat_map
               (λ i, [prefetch_task settings png_encode zoom (z + i) row col;
                      prefetch_task settings png_encode zoom (z - i) row col]) l)
             = (2 * length l)%nat).
  { induction l as [|i l IH]; simpl; [done|]. rewrite IH. lia. }
  rewrite H, length_seqZ. lia.
Qed.

Lemma make_tile_run row col z zoom bg w :
  make_tile settings png_encode row col z zoom bg w
  = match make_my_tile settings png_encode zoom z row col w with
    | (Ok _, w1) =>
        (Ok (if PREFETCH_ADJACENT_Z settings >? 0
             then bg ++ z_neighbours settings png_encode zoom z row col (PREFETCH_ADJACENT_Z settings)
             else bg), w1)
    | (Raise e, w1) => (Raise (HTTPException 404 (str e)), w1)
    end.
Proof.
  unfold make_tile, bind, try_except, raise, ret.
  destruct (make_my_tile settings png_encode zoom z row col w) as [[[]|e] w1];
    [|done].
  rewrite add_tasks_fold. fold (z_neighbours settings png_encode zoom z row col (PREFETCH_ADJACENT_Z settings)).
  by destruct (PREFETCH_HIGHERRES_SCALE_INDEX settings).
Qed.

(** C7.  With a prefetch count [k > 0], once the synchronous
    [make_my_tile] of the request has succeeded, [make_tile] adds exactly
    [2k] tasks to the background tasks of the request: in this order,
    [make_my_tile(zoom, z+i, row, col)] and [make_my_tile(zoom, z-i, row, col)]
    for [i = 0 .. k-1].  Each of them is [make_my_tile] itself, and so
    returns at the existence check when its key is already in the store. *)
Theorem prefetch_schedules_2k zoom z row col bg w w1 :
  0 < PREFETCH_ADJACENT_Z settings →
  make_my_tile settings png_encode zoom z row col w = (Ok (), w1) →
  let k := PREFETCH_ADJACENT_Z settings in
  let new :=
    flat_map (λ i, [prefetch_task settings png_encode zoom (z + i) row col;
                    prefetch_task settings png_encode zoom (z - i) row col])
             (seqZ 0 k) in
  make_tile settings png_encode row col z zoom bg w = (Ok (bg ++ new), w1)
  ∧ Z.of_nat (length new) = 2 * k
  ∧ Forall (λ t, bt_func t = make_my_tile settings png_encode) new
  ∧ (∀ i, 0 ≤ i < k →
          prefetch_task settings png_encode zoom (z + i) row col ∈ new
          ∧ prefetch_task settings png_encode zoom (z - i) row col ∈ new)
  ∧ Forall (λ t, ∀ v,
              let '(zoom', z', row', col') := bt_args t in
              is_Some (r v !! tile_key zoom' z' row' col') →
              call_task t v = (Ok (), v)) new.
Proof.
  intros Hk Hrun k new.
  assert (Hnew : new = z_neighbours settings png_encode zoom z row col k) by done.
  split_and!.
  - rewrite make_tile_run, Hrun.
    replace (PREFETCH_ADJACENT_Z settings >? 0) with true
      by (symmetry; apply Z.gtb_lt; lia).
    by rewrite Hnew.
  - rewrite Hnew. apply z_neighbours_length. lia.
  - apply Forall_forall. intros t Ht.
    apply list_elem_of_In, in_flat_map in Ht as (i & _ & Ht).
    by destruct Ht as [<-|[<-|[]]].
  - intros i Hi.
    assert (Hin : In i (seqZ 0 k)).
    { apply list_elem_of_In, list_elem_of_lookup. exists (Z.to_nat i).
      apply lookup_seqZ. lia. }
    split; apply list_elem_of_In, in_flat_map; exists i; simpl; auto.
  - apply Forall_forall. intros t Ht.
    apply list_elem_of_In, in_flat_map in Ht as (i & _ & Ht).
    destruct Ht as [<-|[<-|[]]]; intros v; simpl; intros Hv;
      unfold call_task; simpl; by apply make_my_tile_present.
Qed.

(** Running the tasks of a list: a prefix that succeeds, then the rest. *)
Lemma run_background_tasks_app (pre rest : list BackgroundTask) w w0 :
  run_background_tasks pre w = (Ok (), w0) →
  run_background_tasks (pre ++ rest) w = run_background_tasks rest w0.
Proof.
  revert w. induction pre as [|t pre IH]; intros w; simpl.
  - unfold ret. by intros [= <-].
  - unfold bind. destruct (call_task t w) as [[[]|e] w']; [|done].
    apply IH.
Qed.

(** C8 (amended).  A prefetch task that fails does not change the answer
    to the request that scheduled it: the answer is that of the handler,
    200 once the synchronous [make_my_tile] has succeeded.  The failing
    task raises its error out of the task (it is not caught there) and
    leaves the store as it was, and the tasks scheduled after it are not
    run: the run of the task list ends at the first task that raises. *)
Theorem prefetch_failure_stops_later_tasks :
  (∀ zoom z row col w w1,
     make_my_tile settings png_encode zoom z row col w = (Ok (), w1) →
     (app_make_tile settings png_encode zoom z row col w).1
     = {| status := 200; body := JsonNull |})
  ∧ (∀ pre t rest w w0 e w1,
       run_background_tasks pre w = (Ok (), w0) →
       call_task t w0 = (Raise e, w1) →
       run_background_tasks (pre ++ t :: rest) w = (Raise e, w1))
  ∧ (∀ zoom z row col w e w1,
       call_task (prefetch_task settings png_encode zoom z row col) w
         = (Raise e, w1) →
       r w1 = r w).
Proof.
  split_and!.
  - intros zoom z row col w w1 Hrun. unfold app_make_tile.
    by rewrite make_tile_run, Hrun.
  - intros pre t rest w w0 e w1 Hpre Ht.
    rewrite (run_background_tasks_app pre (t :: rest) w w0 Hpre).
    simpl. unfold bind. by rewrite Ht.
  - intros zoom z row col w e w1. unfold call_task. simpl. intros Hrun.
    by apply make_my_tile_raise_store in Hrun as (_ & ? & _).
Qed.

(** ** The answers of the two services *)

(** C5 (amended).  When [make_my_tile] fails for the requested address,
    the Materializer's [make_tile] route answers 404 with the reason as
    its detail; the Edge's [get_tile] drops that answer, finds no bytes
    under the key and answers 200 with an empty [image/png] body. *)
Theorem edge_ignores_failed_materialization zoom z row col w e w1 :
  make_my_tile settings png_encode zoom z row col w = (Raise e, w1) →
  app_make_tile settings png_encode zoom z row col w
  = ({| status := 404; body := JsonDetail (str e) |}, w1)
  ∧ edge_get_tile settings png_encode zoom z row col w
    = ({| status := 200; body := Stream "image/png" [] |}, w1).
Proof.
  intros Hrun.
  assert (Happ : app_make_tile settings png_encode zoom z row col w
                 = ({| status := 404; body := JsonDetail (str e) |}, w1)).
  { unfold app_make_tile. by rewrite make_tile_run, Hrun. }
  split; [done|].
  apply make_my_tile_raise_store in Hrun as (Hk & Hr & _).
  unfold edge_get_tile, get_tile, bind, requests_get_make_tile.
  rewrite Happ. simpl. unfold r_get, ret. by rewrite Hr, Hk.
Qed.

(** C9 (amended).  For a zoom level that is not among the configured
    ones, [volume_info] raises an unhandled [KeyError]: the Materializer
    answers 500 Internal Server Error, and so does the Edge, which cannot
    decode that answer.  For a configured zoom both answer 200 with the
    shape of the volume, the string of its dtype and the tile size. *)
Theorem volume_info_answers zoom w :
  (zoom ∉ TENSORSTORE_SCALE_INDEX settings →
     volume_info settings zoom w = (Raise (KeyError zoom), w)
     ∧ app_volume_info settings zoom w
       = ({| status := 500; body := PlainText "Internal Server Error" |}, w)
     ∧ edge_get_volume_info settings zoom w
       = ({| status := 500; body := PlainText "Internal Server Error" |}, w))
  ∧ (zoom ∈ TENSORSTORE_SCALE_INDEX settings →
     let info :=
       JsonVolumeInfo (vol_shape (TENSORSTORE_SPEC settings zoom))
                      (dtype_name (vol_dtype (TENSORSTORE_SPEC settings zoom)))
                      (TILE_SIZE settings) in
     app_volume_info settings zoom w = ({| status := 200; body := info |}, w)
     ∧ edge_get_volume_info settings zoom w
       = ({| status := 200; body := info |}, w)).
Proof.
  split.
  - intros Hzoom.
    destruct (tile_server_not_configured zoom Hzoom) as (_ & Hs & _).
    assert (Hv : volume_info settings zoom w = (Raise (KeyError zoom), w)).
    { unfold volume_info, bind, getitem, raise. by rewrite Hs. }
    assert (Ha : app_volume_info settings zoom w
       = ({| status := 500; body := PlainText "Internal Server Error" |}, w)).
    { unfold app_volume_info. by rewrite Hv. }
    split_and!; try done.
    unfold edge_get_volume_info, get_volume_info, bind, requests_get_volume_info.
    by rewrite Ha.
  - intros Hzoom info.
    destruct (tile_server_configured zoom Hzoom) as (_ & Hs & Ht).
    assert (Ha : app_volume_info settings zoom w
                 = ({| status := 200; body := info |}, w)).
    { unfold app_volume_info, volume_info, bind, getitem, ret.
      by rewrite Hs, Ht. }
    split; [done|].
    unfold edge_get_volume_info, get_volume_info, bind, requests_get_volume_info.
    by rewrite Ha.
Qed.

End ServiceProperties.

(** * The sample deployments, evaluated *)

(** The end-to-end requests of the specification. *)
Example end_to_end_full_tile :
  let '(x, w) :=
    get_2d_tile (tile_server end_to_end_settings) 0 0 5 0 empty_world in
  (nd_shape <$> (match x with Ok t => Some t | Raise _ => None end),
   effects w)
  = (Some (256, 256), [VolumeRead 0 0 256 0 256 5]).
Proof. vm_compute. reflexivity. Qed.

Example end_to_end_edge_tile :
  let '(x, w) :=
    get_2d_tile (tile_server end_to_end_settings) 2 2 5 0 empty_world in
  (nd_shape <$> (match x with Ok t => Some t | Raise _ => None end),
   effects w)
  = (Some (88, 88), [VolumeRead 0 512 600 512 600 5]).
Proof. vm_compute. reflexivity. Qed.

Example end_to_end_blank_tile :
  let '(x, w) :=
    get_2d_tile (tile_server end_to_end_settings) 0 3 5 0 empty_world in
  (nd_shape <$> (match x with Ok t => Some t | Raise _ => None end),
   effects w)
  = (Some (256, 256), []).
Proof. vm_compute. reflexivity. Qed.

Example end_to_end_z_out_of_range :
  get_2d_tile (tile_server end_to_end_settings) 0 0 20 0 empty_world
  = (Raise (ValueError "Tile out of z bounds: Request 20 for [0,10]"),
     empty_world).
Proof. vm_compute. reflexivity. Qed.

(** A start corner exactly on the edge is not a blank tile but an error. *)
Example corner_on_the_edge :
  get_2d_tile
    (tile_server {| TILE_SIZE := 200;
                    TENSORSTORE_SCALE_INDEX := [0];
                    TENSORSTORE_SPEC := λ _, end_to_end_volume;
                    PREFETCH_ADJACENT_Z := 0;
                    PREFETCH_HIGHERRES_SCALE_INDEX := false |})
    3 0 5 0 empty_world
  = (Raise (ValueError "Tile out of x bounds: Request 600 larger than 600]"),
     empty_world).
Proof. vm_compute. reflexivity. Qed.

(** ** C1 *)

Lemma outside_tile_is_blank_and_cached_witness :
  ∃ tile,
    get_2d_tile (tile_server sample_settings) 0 3 2 0 empty_world
    = (Ok tile, empty_world)
    ∧ nd_shape tile = (4, 4)
    ∧ nd_get tile 1 3 = Some 0
    ∧ ∀ png, sample_encode tile = Ok png →
        make_my_tile sample_settings sample_encode 0 2 3 0 empty_world
        = (Ok (), {| r := <[tile_key 0 2 3 0 := png]> ∅;
                     effects := [CacheSet (tile_key 0 2 3 0) png] |}).
Proof.
  destruct (outside_tile_is_blank_and_cached sample_settings sample_encode
              0 2 3 0 10 10 4 empty_world)
    as (tile & Hget & Hshape & _ & Hzero & Hset).
  - apply list_elem_of_here.
  - reflexivity.
  - simpl; lia.
  - right. reflexivity.
  - exists tile. split; [exact Hget|]. split; [exact Hshape|].
    split; [apply Hzero; simpl; lia|].
    apply Hset. reflexivity.
Defined.

(** The blank tile of an address beyond the volume is written to the
    store under its key. *)
Lemma outside_tile_is_written_counterexample :
  let w' := (make_my_tile sample_settings sample_encode 0 2 3 0 empty_world).2 in
  ¬ (0 * TILE_SIZE sample_settings > 10 ∨ 3 * TILE_SIZE sample_settings > 10 →
     r w' !! tile_key 0 2 3 0 = r empty_world !! tile_key 0 2 3 0
     ∧ cache_sets (tile_key 0 2 3 0) w' = []).
Proof.
  intros w' H. destruct H as [H _]; [right; reflexivity|].
  vm_compute in H. discriminate H.
Qed.

(** ** C2 *)

Lemma z_out_of_bounds_raises_witness :
  get_2d_tile (tile_server sample_settings) 0 0 7 0 empty_world
  = (Raise (ValueError ("Tile out of z bounds: Request " +:+ pretty 7
                          +:+ " for [0," +:+ pretty 4 +:+ "]")), empty_world).
Proof.
  apply (z_out_of_bounds_raises sample_settings 0 7 0 0 10 10 4 empty_world).
  - apply list_elem_of_here.
  - reflexivity.
  - simpl; lia.
  - simpl; lia.
  - lia.
Defined.

(** With [z] out of range and the start corner beyond the volume,
    extraction returns the blank tile instead of raising. *)
Lemma z_out_of_bounds_blank_counterexample :
  ¬ (¬ (0 ≤ 7 < 4) →
     ∃ msg, (get_2d_tile (tile_server sample_settings) 0 3 7 0 empty_world).1
            = Raise (ValueError msg)).
Proof.
  intros H. destruct H as [msg H]; [lia|].
  vm_compute in H. discriminate H.
Qed.

(** ** C3 *)

Lemma inside_tile_is_clipped_region_witness :
  ∃ tile,
    get_2d_tile (tile_server sample_settings) 2 2 3 0 empty_world
    = (Ok tile, {| r := ∅; effects := [VolumeRead 0 8 10 8 10 3] |})
    ∧ nd_shape tile = (2, 2)
    ∧ nd_get tile 1 0 = Some (voxel sample_volume 8 9 3).
Proof.
  destruct (inside_tile_is_clipped_region sample_settings 0 3 2 2 10 10 4
              empty_world)
    as (tile & Hget & Hshape & _ & Hpix).
  - apply list_elem_of_here.
  - reflexivity.
  - simpl; lia.
  - lia.
  - lia.
  - simpl; lia.
  - simpl; lia.
  - lia.
  - exists tile. split; [exact Hget|]. split; [exact Hshape|].
    apply (Hpix 1 0); simpl; lia.
Defined.

(** ** C4 *)

Lemma make_my_tile_twice_witness :
  let first := make_my_tile sample_settings sample_encode 0 3 0 0 empty_world in
  let second := make_my_tile sample_settings sample_encode 0 3 0 0 first.2 in
  first.1 = Ok ()
  ∧ second = (Ok (), first.2)
  ∧ volume_reads second.2 = volume_reads first.2
  ∧ r second.2 !! tile_key 0 3 0 0 = r first.2 !! tile_key 0 3 0 0.
Proof.
  intros first second.
  assert (H1 : first.1 = Ok ()) by (vm_compute; reflexivity).
  destruct (make_my_tile_twice sample_settings sample_encode 0 3 0 0 empty_world)
    as (_ & H).
  destruct (H H1) as (_ & Hsecond & Hreads & Hbytes).
  split; [exact H1|]. split; [exact Hsecond|]. split; [exact Hreads|].
  exact Hbytes.
Defined.

(** After a first call that failed once the volume was read (the encoder
    rejects the 64-bit tile), the key is still missing and the second
    call reads the volume again. *)
Lemma second_call_reads_again_counterexample :
  let first := make_my_tile sample_settings sample_encode 1 3 0 0 empty_world in
  let second := make_my_tile sample_settings sample_encode 1 3 0 0 first.2 in
  ¬ (r second.2 !! tile_key 1 3 0 0 = r first.2 !! tile_key 1 3 0 0
     ∧ volume_reads second.2 = volume_reads first.2).
Proof.
  intros first second [_ H]. vm_compute in H. discriminate H.
Qed.

(** When the encoder rejects the tile, the first call has read the volume
    and written nothing, and so does the second. *)
Example make_my_tile_twice_after_failure :
  let first := make_my_tile sample_settings sample_encode 1 3 0 0 empty_world in
  let second := make_my_tile sample_settings sample_encode 1 3 0 0 first.2 in
  first = (Raise (Exception (TypeError "Cannot handle this data type")),
           {| r := ∅; effects := [VolumeRead 1 0 4 0 4 3] |})
  ∧ r second.2 = r first.2
  ∧ volume_reads second.2 = [VolumeRead 1 0 4 0 4 3; VolumeRead 1 0 4 0 4 3].
Proof. vm_compute. done. Qed.

(** ** C5 *)

Lemma edge_ignores_failed_materialization_witness :
  app_make_tile sample_settings sample_encode 0 7 0 0 empty_world
  = ({| status := 404;
        body := JsonDetail "Tile out of z bounds: Request 7 for [0,4]" |},
     empty_world)
  ∧ edge_get_tile sample_settings sample_encode 0 7 0 0 empty_world
    = ({| status := 200; body := Stream "image/png" [] |}, empty_world).
Proof.
  apply (edge_ignores_failed_materialization sample_settings sample_encode
           0 7 0 0 empty_world
           (Exception (ValueError "Tile out of z bounds: Request 7 for [0,4]"))
           empty_world).
  vm_compute. reflexivity.
Defined.

(** The Materializer fails for a slice outside the volume, and the Edge
    answers 200, not a not-found error with the reason. *)
Lemma edge_not_found_counterexample :
  ¬ (is_ok (make_my_tile sample_settings sample_encode 0 7 0 0 empty_world).1
       = false →
     ∃ detail,
       (edge_get_tile sample_settings sample_encode 0 7 0 0 empty_world).1
       = {| status := 404; body := JsonDetail detail |}).
Proof.
  intros H. destruct H as [detail H]; [vm_compute; reflexivity|].
  vm_compute in H. discriminate H.
Qed.

(** ** C6 *)

Lemma make_my_tile_error_no_write_witness :
  make_my_tile sample_settings sample_encode 0 7 0 0 empty_world
  = (Raise (Exception (ValueError "Tile out of z bounds: Request 7 for [0,4]")),
     empty_world)
  ∧ (∃ tile w1,
       get_2d_tile (tile_server sample_settings) 0 0 3 1 empty_world
         = (Ok tile, w1)
       ∧ make_my_tile sample_settings sample_encode 1 3 0 0 empty_world
         = (Raise (Exception (TypeError "Cannot handle this data type")), w1)
       ∧ r w1 = ∅
       ∧ cache_sets (tile_key 1 3 0 0) w1 = []).
Proof.
  split.
  - destruct (make_my_tile_error_no_write sample_settings sample_encode
                0 7 0 0 empty_world) as (Hextract & _).
    + vm_compute. reflexivity.
    + apply (Hextract
               (ValueError "Tile out of z bounds: Request 7 for [0,4]")
               empty_world).
      vm_compute. reflexivity.
  - destruct (make_my_tile_error_no_write sample_settings sample_encode
                1 3 0 0 empty_world) as (_ & Hencode).
    + vm_compute. reflexivity.
    + destruct (get_2d_tile (tile_server sample_settings) 0 0 3 1 empty_world)
        as [[tile|e] w1] eqn:Hget; [|vm_compute in Hget; discriminate Hget].
      exists tile, w1. split; [reflexivity|].
      destruct (Hencode tile (TypeError "Cannot handle this data type") w1
                  eq_refl) as (Hrun & _ & Hr & Hsets).
      * vm_compute in Hget. injection Hget as <- _. vm_compute. reflexivity.
      * split; [exact Hrun|]. split; [exact Hr|]. apply Hsets.
Defined.

(** ** C7 *)

Lemma prefetch_schedules_2k_witness :
  ∃ tasks w1,
    make_tile sample_settings sample_encode 0 0 1 0 [] empty_world
    = (Ok tasks, w1)
    ∧ bt_args <$> tasks = [(0, 1, 0, 0); (0, 1, 0, 0); (0, 2, 0, 0); (0, 0, 0, 0)]
    ∧ Z.of_nat (length tasks) = 2 * 2
    ∧ Forall (λ t, bt_func t = make_my_tile sample_settings sample_encode) tasks.
Proof.
  destruct (make_my_tile sample_settings sample_encode 0 1 0 0 empty_world)
    as [[[]|e] w1] eqn:Hrun; [|vm_compute in Hrun; discriminate Hrun].
  destruct (prefetch_schedules_2k sample_settings sample_encode 0 1 0 0 []
              empty_world w1) as (Hmake & Hlen & Hfunc & _).
  - simpl; lia.
  - exact Hrun.
  - eexists _, w1. split; [exact Hmake|]. split; [reflexivity|].
    split; [exact Hlen|]. exact Hfunc.
Defined.

(** ** C8 *)

Lemma prefetch_failure_stops_later_tasks_witness :
  (app_make_tile sample_settings sample_encode 0 3 0 0 empty_world).1
  = {| status := 200; body := JsonNull |}
  ∧ (run_background_tasks
       [prefetch_task sample_settings sample_encode 0 7 0 0;
        prefetch_task sample_settings sample_encode 0 2 0 0] empty_world
     = (Raise (Exception (ValueError "Tile out of z bounds: Request 7 for [0,4]")),
        empty_world)).
Proof.
  destruct (prefetch_failure_stops_later_tasks sample_settings sample_encode)
    as (Hanswer & Hstop & _).
  split.
  - destruct (make_my_tile sample_settings sample_encode 0 3 0 0 empty_world)
      as [[[]|e] w1] eqn:Hrun; [|vm_compute in Hrun; discriminate Hrun].
    exact (Hanswer 0 3 0 0 empty_world w1 Hrun).
  - apply (Hstop [] (prefetch_task sample_settings sample_encode 0 7 0 0)
             [prefetch_task sample_settings sample_encode 0 2 0 0]
             empty_world empty_world).
    + reflexivity.
    + vm_compute. reflexivity.
Defined.

(** The request for the last slice schedules the slices 3, 3, 4 and 2; the
    task for slice 4 fails, and the task for slice 2, scheduled after it,
    is never run: its tile is not in the store, though running it would
    put it there. *)
Lemma later_prefetch_task_not_run_counterexample :
  let scheduled :=
    (make_tile sample_settings sample_encode 0 0 3 0 [] empty_world).1 in
  let w' := (app_make_tile sample_settings sample_encode 0 3 0 0 empty_world).2 in
  let task_2 := prefetch_task sample_settings sample_encode 0 2 0 0 in
  (match scheduled with Ok tasks => bt_args <$> tasks | Raise _ => [] end)
    = [(0, 3, 0, 0); (0, 3, 0, 0); (0, 4, 0, 0); (0, 2, 0, 0)]
  ∧ is_ok (call_task (prefetch_task sample_settings sample_encode 0 4 0 0) w').1
    = false
  ∧ r w' !! tile_key 0 2 0 0 = None
  ∧ (call_task task_2 w').1 = Ok ()
  ∧ is_Some (r (call_task task_2 w').2 !! tile_key 0 2 0 0).
Proof.
  vm_compute. split_and!; try reflexivity. eauto.
Qed.

(** ** C9 *)

Lemma volume_info_answers_witness :
  app_volume_info sample_settings 2 empty_world
  = ({| status := 500; body := PlainText "Internal Server Error" |}, empty_world)
  ∧ edge_get_volume_info sample_settings 1 empty_world
    = ({| status := 200; body := JsonVolumeInfo (5, 5, 4) "uint64" 4 |},
       empty_world).
Proof.
  destruct (volume_info_answers sample_settings 2 empty_world) as (Hmissing & _).
  destruct (volume_info_answers sample_settings 1 empty_world) as (_ & Hfound).
  split.
  - apply Hmissing. intros [H|[H|H]%elem_of_cons]%elem_of_cons.
    + discriminate H.
    + discriminate H.
    + inversion H.
  - apply Hfound. apply list_elem_of_further, list_elem_of_here.
Defined.

(** A zoom level that is not configured gets 500 from both services, not
    a 404. *)
Lemma volume_info_not_found_counterexample :
  ¬ (2 ∉ TENSORSTORE_SCALE_INDEX sample_settings →
     status (app_volume_info sample_settings 2 empty_world).1 = 404
     ∨ status (edge_get_volume_info sample_settings 2 empty_world).1 = 404).
Proof.
  intros H. destruct H as [H|H].
  - intros [H|[H|H]%elem_of_cons]%elem_of_cons;
      [discriminate H | discriminate H | inversion H].
  - vm_compute in H. discriminate H.
  - vm_compute in H. discriminate H.
Qed.

(** ** C10 *)

Lemma cached_key_skips_validation_witness :
  make_my_tile sample_settings sample_encode 0 7 0 0 warm_world
  = (Ok (), warm_world)
  ∧ (get_2d_tile (tile_server sample_settings) 0 0 7 0 warm_world).1
    = Raise (ValueError "Tile out of z bounds: Request 7 for [0,4]").
Proof.
  split.
  - apply (cached_key_skips_validation sample_settings sample_encode
             0 7 0 0 warm_world).
    vm_compute. eauto.
  - vm_compute. reflexivity.
Defined.

(** * Further properties of the two modules *)

(** ** The handles of [__init__] *)

(** X1.  [__init__] leaves the three dicts of the server with the same
    keys, exactly the configured zoom levels (listed once or several
    times); the shape and the dtype recorded for a zoom are those of its
    handle, the handle is the volume opened at that scale index, and
    [tile_size] is the one passed in. *)
Theorem init_handles_consistent (spec : Z → Volume) (zooms : list Z)
    (size zoom : Z) :
  let self := AsyncTensorStoreServer_init spec zooms size in
  tile_size self = size
  ∧ (is_Some (dataset_3d self !! zoom) ↔ zoom ∈ zooms)
  ∧ shapes self !! zoom = vol_shape <$> dataset_3d self !! zoom
  ∧ dtypes self !! zoom = vol_dtype <$> dataset_3d self !! zoom
  ∧ (∀ ds, dataset_3d self !! zoom = Some ds → ds = spec zoom).
Proof.
  intros self. subst self. unfold AsyncTensorStoreServer_init. simpl.
  pose proof (init_fold_lookup spec zooms
                {| dataset_3d := ∅; shapes := ∅; dtypes := ∅; tile_size := 0 |}
                zoom) as (Hd & Hs & Ht).
  simpl in Hd, Hs, Ht.
  destruct (decide (zoom ∈ zooms)) as [Hin|Hin];
    rewrite ?lookup_empty in Hd, Hs, Ht; rewrite Hd, Hs, Ht; simpl.
  - split_and!; try done; first [by split; eauto | intros ds Hds; congruence].
  - split_and!; try done.
    split; [by intros [? ?] | done].
Qed.

Section ExtractionProperties.

Context (settings : Settings).
Context (png_encode : ndarray → result bytes).

Local Abbreviation server := (tile_server settings).
Local Abbreviation size := (TILE_SIZE settings).

(** [get_2d_tile] at a configured zoom, with the lookups resolved. *)
Lemma get_2d_tile_configured zoom sx sy sz col row z w :
  zoom ∈ TENSORSTORE_SCALE_INDEX settings →
  vol_shape (TENSORSTORE_SPEC settings zoom) = (sx, sy, sz) →
  get_2d_tile server col row z zoom w
  = if (col * size >? sx) || (row * size >? sy)
    then (np_zeros (size, size) np_uint8, w)
    else if (z <? 0) || (z >=? sz)
    then (Raise (ValueError (z_bounds_msg z sz)), w)
    else if col * size >=? sx
    then (Raise (ValueError (x_bounds_msg (col * size) sx)), w)
    else if row * size >=? sy
    then (Raise (ValueError (y_bounds_msg (row * size) sy)), w)
    else
      (tile <- ts_read zoom (TENSORSTORE_SPEC settings zoom)
                 (col * size) (Z.min (col * size + size) sx)
                 (row * size) (Z.min (row * size + size) sy) z ;;
       ret (T tile)) w.
Proof.
  intros Hzoom Hshape.
  destruct (tile_server_configured settings zoom Hzoom) as (Hd & Hs & _).
  rewrite Hshape in Hs.
  unfold get_2d_tile, bind at 1, getitem, ret, lift, raise.
  rewrite Hs, tile_server_tile_size.
  repeat (match goal with |- context [if ?c then _ else _] => destruct c end;
          try reflexivity).
  unfold bind at 1. by rewrite Hd.
Qed.

(** The read of a tile inside the volume, and the pixels it returns. *)
Lemma get_2d_tile_inside zoom z row col sx sy sz w :
  zoom ∈ TENSORSTORE_SCALE_INDEX settings →
  vol_shape (TENSORSTORE_SPEC settings zoom) = (sx, sy, sz) →
  0 ≤ size → 0 ≤ row → 0 ≤ col →
  col * size < sx → row * size < sy → 0 ≤ z < sz →
  ∃ tile,
    get_2d_tile server col row z zoom w
    = (Ok tile,
       {| r := r w;
          effects := VolumeRead zoom (col * size) (Z.min (col * size + size) sx)
                       (row * size) (Z.min (row * size + size) sy) z
                       :: effects w |})
    ∧ nd_dtype tile = vol_dtype (TENSORSTORE_SPEC settings zoom)
    ∧ ∀ i j,
        0 ≤ i < Z.min size (sy - row * size) →
        0 ≤ j < Z.min size (sx - col * size) →
        nd_get tile i j
        = Some (voxel (TENSORSTORE_SPEC settings zoom)
                  (col * size + j) (row * size + i) z).
Proof.
  intros Hzoom Hshape Hts Hrow Hcol Hx Hy Hz.
  rewrite (get_2d_tile_configured zoom sx sy sz) by done.
  assert (0 ≤ col * size) by (by apply Z.mul_nonneg_nonneg).
  assert (0 ≤ row * size) by (by apply Z.mul_nonneg_nonneg).
  unfold bind, ts_read, ret, raise. rewrite Hshape.
  zbool.
  eexists. split; [reflexivity|]. split; [done|].
  intros i j Hi Hj.
  erewrite nd_get_T; [|simpl; reflexivity|lia..].
  unfold nd_get; simpl. zbool.
  rewrite list_lookup_fmap, lookup_seqZ_lt by lia. simpl.
  rewrite list_lookup_fmap, lookup_seqZ_lt by lia. simpl.
  by rewrite !Z2Nat.id by lia.
Qed.

(** X2.  For a zoom level that is not configured, extraction raises
    [KeyError(zoom)] whatever the rest of the address is; on a cache miss
    [make_my_tile] raises it on, and the [make_tile] route answers 404
    whose detail is the zoom number. *)
Theorem unconfigured_zoom_tile_request zoom z row col w :
  zoom ∉ TENSORSTORE_SCALE_INDEX settings →
  get_2d_tile server col row z zoom w = (Raise (KeyError zoom), w)
  ∧ (r w !! tile_key zoom z row col = None →
     make_my_tile settings png_encode zoom z row col w
       = (Raise (Exception (KeyError zoom)), w)
     ∧ app_make_tile settings png_encode zoom z row col w
       = ({| status := 404; body := JsonDetail (pretty zoom) |}, w)).
Proof.
  intros Hzoom.
  destruct (tile_server_not_configured settings zoom Hzoom) as (_ & Hs & _).
  assert (Hget : get_2d_tile server col row z zoom w
                 = (Raise (KeyError zoom), w)).
  { unfold get_2d_tile, bind, getitem, raise. by rewrite Hs. }
  split; [done|]. intros Hk.
  assert (Hrun : make_my_tile settings png_encode zoom z row col w
                 = (Raise (Exception (KeyError zoom)), w))
    by (by rewrite make_my_tile_absent, Hget).
  split; [done|].
  unfold app_make_tile. by rewrite make_tile_run, Hrun.
Qed.

(** X3.  A start corner exactly on the edge of the volume is an error,
    not a blank tile: with [z] in range, [start_x = shape.x] raises the
    x-bounds [ValueError] (also when [start_y = shape.y]), and
    [start_x < shape.x] with [start_y = shape.y] raises the y-bounds
    one; the volume is not read. *)
Theorem corner_on_edge_raises zoom z row col sx sy sz w :
  zoom ∈ TENSORSTORE_SCALE_INDEX settings →
  vol_shape (TENSORSTORE_SPEC settings zoom) = (sx, sy, sz) →
  0 ≤ z < sz →
  (col * size = sx → row * size ≤ sy →
   get_2d_tile server col row z zoom w
   = (Raise (ValueError ("Tile out of x bounds: Request " +:+ pretty (col * size)
                           +:+ " larger than " +:+ pretty sx +:+ "]")), w))
  ∧ (col * size < sx → row * size = sy →
     get_2d_tile server col row z zoom w
     = (Raise (ValueError ("Tile out of y bounds: Request " +:+ pretty (row * size)
                             +:+ " larger than " +:+ pretty sy +:+ "]")), w)).
Proof.
  intros Hzoom Hshape Hz. split; intros Hx Hy;
    rewrite (get_2d_tile_configured zoom sx sy sz) by done; by zbool.
Qed.

(** X4.  For a tile address (non-negative [row] and [col]) at a
    configured zoom, extraction returns a tile exactly when the start
    corner is beyond the volume (the blank tile) or the corner is inside
    the volume and [z] is one of its slices; in every other case it
    raises. *)
Theorem get_2d_tile_succeeds_iff zoom z row col sx sy sz w :
  zoom ∈ TENSORSTORE_SCALE_INDEX settings →
  vol_shape (TENSORSTORE_SPEC settings zoom) = (sx, sy, sz) →
  0 ≤ size → 0 ≤ row → 0 ≤ col →
  is_ok (get_2d_tile server col row z zoom w).1 = true
  ↔ (col * size > sx ∨ row * size > sy)
    ∨ (0 ≤ z < sz ∧ col * size < sx ∧ row * size < sy).
Proof.
  intros Hzoom Hshape Hts Hrow Hcol.
  assert (0 ≤ col * size) by (by apply Z.mul_nonneg_nonneg).
  assert (0 ≤ row * size) by (by apply Z.mul_nonneg_nonneg).
  destruct (decide (col * size > sx ∨ row * size > sy)) as [Hout|Hin].
  { split; [by left|]. intros _.
    rewrite (get_2d_tile_configured zoom sx sy sz) by done.
    replace ((col * size >? sx) || (row * size >? sy)) with true
      by (symmetry; apply orb_true_iff; rewrite <- !Zgt_is_gt_bool; lia).
    unfold np_zeros. by zbool. }
  destruct (decide (0 ≤ z < sz ∧ col * size < sx ∧ row * size < sy))
    as [(Hz & Hx & Hy)|Hbad].
  { split; [by right|]. intros _.
    destruct (get_2d_tile_inside zoom z row col sx sy sz w)
      as (tile & -> & _); done. }
  split; [|intros [?|?]; done].
  rewrite (get_2d_tile_configured zoom sx sy sz) by done.
  zbool; (done || lia).
Qed.

(** X5.  Whatever the server and the address, a tile that
    [get_2d_tile] returns is never larger than [tile_size x tile_size],
    and its data has as many rows and columns as its shape says. *)
Theorem returned_tile_within_tile_size
    (self : AsyncTensorStoreServer) col row z zoom w tile w1 :
  get_2d_tile self col row z zoom w = (Ok tile, w1) →
  0 ≤ (nd_shape tile).1 ≤ tile_size self
  ∧ 0 ≤ (nd_shape tile).2 ≤ tile_size self
  ∧ length (nd_data tile) = Z.to_nat (nd_shape tile).1
  ∧ Forall (λ pixels, length pixels = Z.to_nat (nd_shape tile).2) (nd_data tile).
Proof.
  unfold get_2d_tile, bind, getitem, lift, raise, ret.
  destruct (shapes self !! zoom) as [[[sx sy] sz]|]; [|done].
  destruct ((col * tile_size self >? sx) || (row * tile_size self >? sy)).
  { unfold np_zeros.
    destruct ((tile_size self <? 0) || (tile_size self <? 0)) eqn:Hneg; [done|].
    apply orb_false_iff in Hneg as [Hneg _]. apply Z.ltb_ge in Hneg.
    intros [= <- _]. simpl. split_and!; try lia.
    - by rewrite length_replicate.
    - apply Forall_forall. intros pixels [-> _]%elem_of_replicate.
      by rewrite length_replicate. }
  destruct ((z <? 0) || (z >=? sz)); [done|].
  destruct (col * tile_size self >=? sx); [done|].
  destruct (row * tile_size self >=? sy); [done|].
  destruct (dataset_3d self !! zoom) as [ds|]; [|done].
  unfold ts_read, raise. destruct (vol_shape ds) as [[vx vy] vz].
  match goal with |- context [if ?c then _ else _] => destruct c eqn:Hin end;
    [|done].
  repeat (apply andb_true_iff in Hin as [Hin ?]).
  repeat match goal with H : (_ <=? _) = true |- _ => apply Z.leb_le in H end.
  apply Z.leb_le in Hin.
  intros [= <- _]. simpl. split_and!; try lia.
  - by rewrite length_fmap, length_seqZ.
  - apply Forall_fmap, Forall_forall. intros j _. simpl.
    by rewrite length_fmap, length_seqZ.
Qed.

(** What extraction adds to the effects: nothing, or one read. *)
Lemma get_2d_tile_effects
    (self : AsyncTensorStoreServer) col row z zoom w x w1 :
  get_2d_tile self col row z zoom w = (x, w1) →
  r w1 = r w
  ∧ (effects w1 = effects w
     ∨ ∃ x0 x1 y0 y1,
         is_ok x = true
         ∧ effects w1 = VolumeRead zoom x0 x1 y0 y1 z :: effects w).
Proof.
  unfold get_2d_tile, bind, getitem, lift, raise, ret.
  destruct (shapes self !! zoom) as [[[sx sy] sz]|];
    [|by intros [= <- <-]; auto].
  destruct ((col * tile_size self >? sx) || (row * tile_size self >? sy));
    [by intros [= <- <-]; auto|].
  destruct ((z <? 0) || (z >=? sz)); [by intros [= <- <-]; auto|].
  destruct (col * tile_size self >=? sx); [by intros [= <- <-]; auto|].
  destruct (row * tile_size self >=? sy); [by intros [= <- <-]; auto|].
  destruct (dataset_3d self !! zoom) as [ds|]; [|by intros [= <- <-]; auto].
  unfold ts_read, raise. destruct (vol_shape ds) as [[vx vy] vz].
  match goal with |- context [if ?c then _ else _] => destruct c end;
    [|by intros [= <- <-]; auto].
  intros [= <- <-]. simpl. split; [done|]. right. by eexists _, _, _, _.
Qed.

(** X6.  Extraction never touches the store and issues no write; it
    reads the volume at most once, at the requested zoom and slice, and
    not at all when it raises. *)
Theorem get_2d_tile_reads_at_most_once
    (self : AsyncTensorStoreServer) col row z zoom w x w1 :
  get_2d_tile self col row z zoom w = (x, w1) →
  r w1 = r w
  ∧ (∀ key, cache_sets key w1 = cache_sets key w)
  ∧ (effects w1 = effects w
     ∨ ∃ x0 x1 y0 y1,
         is_ok x = true
         ∧ effects w1 = VolumeRead zoom x0 x1 y0 y1 z :: effects w).
Proof.
  intros Hget.
  destruct (get_2d_tile_effects _ _ _ _ _ _ _ _ Hget) as (Hr & Heff).
  destruct (get_2d_tile_store _ _ _ _ _ _ _ _ Hget) as (_ & Hsets & _).
  done.
Qed.

(** X7.  The tiles cover the volume: with a positive tile size, the
    voxel [(x, y, z)] of a configured zoom is pixel
    [(y mod tile_size, x mod tile_size)] of the tile at
    [col = x // tile_size], [row = y // tile_size]. *)
Theorem every_voxel_is_in_its_tile zoom x y z sx sy sz w :
  zoom ∈ TENSORSTORE_SCALE_INDEX settings →
  vol_shape (TENSORSTORE_SPEC settings zoom) = (sx, sy, sz) →
  0 < size →
  0 ≤ x < sx → 0 ≤ y < sy → 0 ≤ z < sz →
  ∃ tile,
    (get_2d_tile server (x `div` size) (y `div` size) z zoom w).1 = Ok tile
    ∧ nd_get tile (y `mod` size) (x `mod` size)
      = Some (voxel (TENSORSTORE_SPEC settings zoom) x y z).
Proof.
  intros Hzoom Hshape Hts Hx Hy Hz.
  pose proof (Z.div_mod x size ltac:(lia)) as Hdx.
  pose proof (Z.div_mod y size ltac:(lia)) as Hdy.
  pose proof (Z.mod_pos_bound x size Hts) as Hmx.
  pose proof (Z.mod_pos_bound y size Hts) as Hmy.
  assert (0 ≤ x `div` size) by (apply Z.div_pos; lia).
  assert (0 ≤ y `div` size) by (apply Z.div_pos; lia).
  rewrite (Z.mul_comm size) in Hdx, Hdy.
  destruct (get_2d_tile_inside zoom z (y `div` size) (x `div` size) sx sy sz w)
    as (tile & Hget & _ & Hpix); try done; try lia.
  exists tile. rewrite Hget. split; [done|].
  rewrite Hpix by lia. do 2 f_equal; lia.
Qed.

End ExtractionProperties.

(** ** Cache keys *)

Lemma pretty_N_go_free c x s :
  (∀ d, pretty_N_char d ≠ c) → free_of c s → free_of c (pretty_N_go x s).
Proof.
  intros Hc. revert s.
  induction (N.lt_wf_0 x) as [x _ IH]; intros s Hs.
  destruct (decide (x = 0)%N) as [->|Hx]; [by rewrite pretty_N_go_0|].
  rewrite pretty_N_go_step by lia.
  apply IH; [apply N.div_lt; lia|]. simpl. split; [apply Hc | done].
Qed.

(** The decimal form of an integer has digits and a sign only. *)
Lemma pretty_Z_free c (z : Z) :
  (∀ d, pretty_N_char d ≠ c) → c ≠ "-"%char → free_of c (pretty z).
Proof.
  intros Hc Hdash.
  assert (Hpos : ∀ p : positive, free_of c (pretty p)).
  { intros p. change (pretty p) with (pretty_N_go (N.pos p) "").
    by apply pretty_N_go_free. }
  unfold pretty, pretty_Z. destruct z as [|p|p].
  - simpl. split; [apply (Hc 0%N) | done].
  - apply Hpos.
  - simpl. split; [by intros <- | apply Hpos].
Qed.

Lemma append_split c s1 s2 t1 t2 :
  free_of c s1 → free_of c s2 →
  s1 +:+ String c t1 = s2 +:+ String c t2 → s1 = s2 ∧ t1 = t2.
Proof.
  revert s2. induction s1 as [|a s1 IH]; intros [|b s2]; simpl.
  - by intros _ _ [= ->].
  - by intros _ [Hb _] [= <- _].
  - by intros [Ha _] _ [= -> _].
  - intros [_ H1] [_ H2] [= -> Heq].
    by destruct (IH s2 H1 H2 Heq) as [-> ->].
Qed.

Lemma tile_key_eq zoom z row col zoom' z' row' col' :
  tile_key zoom z row col = tile_key zoom' z' row' col' →
  zoom = zoom' ∧ z = z' ∧ row = row' ∧ col = col'.
Proof.
  assert (Hslash : ∀ n : Z, free_of "/"%char (pretty n)).
  { intros n. apply pretty_Z_free; [|done].
    intros d. unfold pretty_N_char. by repeat case_match. }
  assert (Hdot : ∀ n : Z, free_of "."%char (pretty n)).
  { intros n. apply pretty_Z_free; [|done].
    intros d. unfold pretty_N_char. by repeat case_match. }
  unfold tile_key. cbn [String.append]. intros [= Heq].
  apply append_split in Heq as [Hzoom Heq]; [|apply Hslash..].
  apply append_split in Heq as [Hz Heq]; [|apply Hslash..].
  apply append_split in Heq as [Hrow Heq]; [|apply Hslash..].
  change ".png" with (String "." "png") in Heq.
  apply append_split in Heq as [Hcol _]; [|apply Hdot..].
  by rewrite (inj pretty _ _ Hzoom), (inj pretty _ _ Hz),
             (inj pretty _ _ Hrow), (inj pretty _ _ Hcol).
Qed.

(** X8.  The cache key determines the tile address: two addresses have
    the same key only when they are the same address. *)
Theorem tile_key_injective zoom z row col zoom' z' row' col' :
  tile_key zoom z row col = tile_key zoom' z' row' col'
  ↔ (zoom, z, row, col) = (zoom', z', row', col').
Proof.
  split.
  - by intros (-> & -> & -> & ->)%tile_key_eq.
  - by intros [= -> -> -> ->].
Qed.

(** ** The store under [make_my_tile] *)

Section CacheProperties.

Context (settings : Settings).
Context (png_encode : ndarray → result bytes).

Local Abbreviation server := (tile_server settings).
Local Abbreviation size := (TILE_SIZE settings).

(** A call adds at most its own key and changes no entry that exists. *)
Lemma make_my_tile_store_mono zoom z row col w x w1 :
  make_my_tile settings png_encode zoom z row col w = (x, w1) →
  (∀ k v, r w !! k = Some v → r w1 !! k = Some v)
  ∧ (∀ k, k ≠ tile_key zoom z row col → r w1 !! k = r w !! k).
Proof.
  intros Hrun.
  destruct (r w !! tile_key zoom z row col) as [b|] eqn:Hk.
  { rewrite make_my_tile_present in Hrun by (rewrite Hk; eauto).
    by injection Hrun as _ <-. }
  rewrite make_my_tile_absent in Hrun by done.
  destruct (get_2d_tile server col row z zoom w) as [[tile|e] w0] eqn:Hget;
    apply get_2d_tile_store in Hget as (Hr & _ & _).
  - destruct (png_encode tile) as [png|e].
    + injection Hrun as _ <-. simpl. rewrite Hr. split.
      * intros k v Hv. rewrite lookup_insert_ne; [done|]. intros <-. congruence.
      * intros k Hne. by rewrite lookup_insert_ne.
    + injection Hrun as _ <-. by rewrite Hr.
  - injection Hrun as _ <-. by rewrite Hr.
Qed.

(** X9.  [make_my_tile] never overwrites or removes an entry of the
    store, and the entries of every other tile address are exactly as
    they were: the only entry it can add is the one of its own address. *)
Theorem make_my_tile_keeps_other_entries zoom z row col w x w1 :
  make_my_tile settings png_encode zoom z row col w = (x, w1) →
  (∀ k v, r w !! k = Some v → r w1 !! k = Some v)
  ∧ (∀ zoom' z' row' col',
       (zoom', z', row', col') ≠ (zoom, z, row, col) →
       r w1 !! tile_key zoom' z' row' col' = r w !! tile_key zoom' z' row' col').
Proof.
  intros Hrun. destruct (make_my_tile_store_mono _ _ _ _ _ _ _ Hrun) as [Hkeep Hother].
  split; [done|]. intros zoom' z' row' col' Hne. apply Hother.
  intros (-> & -> & -> & ->)%tile_key_eq. done.
Qed.

(** X10.  After a call of [make_my_tile], the tile of the address is in
    the store exactly when the call returned without raising. *)
Theorem make_my_tile_ok_iff_key_present zoom z row col w x w1 :
  make_my_tile settings png_encode zoom z row col w = (x, w1) →
  x = Ok () ↔ is_Some (r w1 !! tile_key zoom z row col).
Proof.
  intros Hrun. destruct x as [[]|e].
  - split; [intros _|done]. by eapply make_my_tile_ok_present.
  - split; [done|]. intros Hsome.
    apply make_my_tile_raise_store in Hrun as (Hk & Hr & _).
    rewrite Hr, Hk in Hsome. by destruct Hsome.
Qed.

(** X11.  What one call of [make_my_tile] does to the outside is one of:
    nothing (a hit, or an error before the read); one read of the volume
    and an error after it; or, on a miss that succeeds, at most one read
    followed by one write, of its own key.  It never reads twice, never
    writes twice and never writes another key. *)
Theorem make_my_tile_effects zoom z row col w x w1 :
  make_my_tile settings png_encode zoom z row col w = (x, w1) →
  effects w1 = effects w
  ∨ (∃ x0 x1 y0 y1,
       is_ok x = false
       ∧ effects w1 = VolumeRead zoom x0 x1 y0 y1 z :: effects w)
  ∨ (∃ png,
       x = Ok ()
       ∧ r w !! tile_key zoom z row col = None
       ∧ r w1 = <[tile_key zoom z row col := png]> (r w)
       ∧ (effects w1 = CacheSet (tile_key zoom z row col) png :: effects w
          ∨ ∃ x0 x1 y0 y1,
              effects w1 = CacheSet (tile_key zoom z row col) png
                             :: VolumeRead zoom x0 x1 y0 y1 z :: effects w)).
Proof.
  intros Hrun.
  destruct (r w !! tile_key zoom z row col) as [b|] eqn:Hk.
  { rewrite make_my_tile_present in Hrun by (rewrite Hk; eauto).
    injection Hrun as _ <-. by left. }
  rewrite make_my_tile_absent in Hrun by done.
  destruct (get_2d_tile server col row z zoom w) as [[tile|e] w0] eqn:Hget;
    apply get_2d_tile_effects in Hget as (Hr & Heff).
  - destruct (png_encode tile) as [png|e].
    + injection Hrun as <- <-. right; right. exists png. simpl.
      rewrite Hr. split_and!; try done.
      destruct Heff as [->|(x0 & x1 & y0 & y1 & _ & ->)]; [by left|].
      right. by eexists _, _, _, _.
    + injection Hrun as <- <-.
      destruct Heff as [->|(x0 & x1 & y0 & y1 & _ & ->)]; [by left|].
      right; left. by eexists _, _, _, _.
  - injection Hrun as <- <-.
    destruct Heff as [->|(x0 & x1 & y0 & y1 & Hok & _)]; [by left|done].
Qed.

(** ** Requests *)

Lemma z_neighbours_funcs zoom z row col k :
  Forall (λ t, bt_func t = make_my_tile settings png_encode)
         (z_neighbours settings png_encode zoom z row col k).
Proof.
  apply Forall_forall. intros t Ht.
  apply list_elem_of_In, in_flat_map in Ht as (i & _ & Ht).
  by destruct Ht as [<-|[<-|[]]].
Qed.

Lemma run_prefetch_store_mono (tasks : list BackgroundTask) w :
  Forall (λ t, bt_func t = make_my_tile settings png_encode) tasks →
  ∀ k v, r w !! k = Some v →
         r (run_background_tasks tasks w).2 !! k = Some v.
Proof.
  intros Htasks. revert w.
  induction Htasks as [|t tasks Ht _ IH]; intros w k v Hv; [done|].
  simpl. unfold bind.
  destruct (call_task t w) as [x w1] eqn:Hcall.
  unfold call_task in Hcall. destruct (bt_args t) as [[[a b] c] d].
  rewrite Ht in Hcall.
  apply make_my_tile_store_mono in Hcall as [Hkeep _].
  destruct x as [[]|e]; [by apply IH, Hkeep | by apply Hkeep].
Qed.

Lemma app_make_tile_store_mono zoom z row col w k v :
  r w !! k = Some v →
  r (app_make_tile settings png_encode zoom z row col w).2 !! k = Some v.
Proof.
  intros Hv. unfold app_make_tile. rewrite make_tile_run.
  destruct (make_my_tile settings png_encode zoom z row col w)
    as [[[]|e] w1] eqn:Hrun;
    apply make_my_tile_store_mono in Hrun as [Hkeep _]; simpl; [|by apply Hkeep].
  apply run_prefetch_store_mono; [|by apply Hkeep].
  destruct (PREFETCH_ADJACENT_Z settings >? 0);
    [apply z_neighbours_funcs | constructor].
Qed.

(** The Edge's handler, with the Materializer's answer resolved. *)
Lemma edge_get_tile_run zoom z row col w :
  edge_get_tile settings png_encode zoom z row col w
  = let w' := (app_make_tile settings png_encode zoom z row col w).2 in
    ({| status := 200;
        body := Stream "image/png" (BytesIO (r w' !! tile_key zoom z row col)) |},
     w').
Proof.
  unfold edge_get_tile, get_tile, bind, requests_get_make_tile.
  destruct (app_make_tile settings png_encode zoom z row col w)
    as [resp w'] eqn:Happ.
  assert (Hjson : ∃ b, json resp = Ok b).
  { unfold app_make_tile in Happ. rewrite make_tile_run in Happ.
    destruct (make_my_tile settings png_encode zoom z row col w) as [[[]|e] w1];
      injection Happ as <- _; simpl; eauto. }
  destruct Hjson as [b Hb]. unfold lift. by rewrite Hb.
Qed.

(** X12.  With a prefetch count of 1 or less nothing is prefetched: the
    request changes the world exactly as its own [make_my_tile] does.
    For a count of 1 the two tasks scheduled are the requested tile
    itself, twice, and both return at the existence check. *)
Theorem prefetch_needs_count_above_one zoom z row col w :
  PREFETCH_ADJACENT_Z settings ≤ 1 →
  (app_make_tile settings png_encode zoom z row col w).2
  = (make_my_tile settings png_encode zoom z row col w).2
  ∧ (PREFETCH_ADJACENT_Z settings = 1 →
     ∀ w1, make_my_tile settings png_encode zoom z row col w = (Ok (), w1) →
       make_tile settings png_encode row col z zoom [] w
       = (Ok [prefetch_task settings png_encode zoom (z + 0) row col;
              prefetch_task settings png_encode zoom (z - 0) row col], w1)).
Proof.
  intros Hk. split.
  - unfold app_make_tile. rewrite make_tile_run.
    destruct (make_my_tile settings png_encode zoom z row col w)
      as [[[]|e] w1] eqn:Hrun; [|done]. simpl.
    destruct (Z.gtb_spec (PREFETCH_ADJACENT_Z settings) 0) as [Hpos|Hneg]; [|done].
    assert (Hone : PREFETCH_ADJACENT_Z settings = 1) by lia. rewrite Hone.
    apply make_my_tile_ok_present in Hrun.
    simpl. unfold bind, call_task. simpl. rewrite Z.add_0_r, Z.sub_0_r.
    by rewrite !make_my_tile_present.
  - intros Hone w1 Hrun. rewrite make_tile_run, Hrun, Hone. done.
Qed.

(** X13.  A whole request, on the Materializer or through the Edge, with
    all the prefetch tasks it runs, never overwrites or removes an entry
    of the store. *)
Theorem request_keeps_existing_entries zoom z row col w k v :
  r w !! k = Some v →
  r (app_make_tile settings png_encode zoom z row col w).2 !! k = Some v
  ∧ r (edge_get_tile settings png_encode zoom z row col w).2 !! k = Some v.
Proof.
  intros Hv. rewrite edge_get_tile_run. simpl.
  split; by apply app_make_tile_store_mono.
Qed.

(** X14.  The Edge's [get_tile] answers every request with status 200
    and an [image/png] body: the bytes the store holds under the key once
    the Materializer has been called, or no bytes when it holds none.  It
    never answers with an error status. *)
Theorem edge_always_answers_200 zoom z row col w :
  let '(resp, w') := edge_get_tile settings png_encode zoom z row col w in
  w' = (app_make_tile settings png_encode zoom z row col w).2
  ∧ status resp = 200
  ∧ body resp = Stream "image/png" (default [] (r w' !! tile_key zoom z row col)).
Proof.
  rewrite edge_get_tile_run. simpl. done.
Qed.

(** X15.  On a cache hit the Edge serves the bytes that were in the
    store, and they stay there. *)
Theorem edge_serves_cached_bytes zoom z row col w png :
  r w !! tile_key zoom z row col = Some png →
  let '(resp, w') := edge_get_tile settings png_encode zoom z row col w in
  resp = {| status := 200; body := Stream "image/png" png |}
  ∧ r w' !! tile_key zoom z row col = Some png.
Proof.
  intros Hk. rewrite edge_get_tile_run. simpl.
  by rewrite (app_make_tile_store_mono zoom z row col w _ _ Hk).
Qed.

(** X16.  On a cache miss for which extraction and encoding succeed, the
    Edge serves the encoding of the tile [get_2d_tile] returns, and that
    encoding is what the store holds under the key afterwards. *)
Theorem edge_serves_encoded_tile zoom z row col w tile w0 png :
  r w !! tile_key zoom z row col = None →
  get_2d_tile server col row z zoom w = (Ok tile, w0) →
  png_encode tile = Ok png →
  let '(resp, w') := edge_get_tile settings png_encode zoom z row col w in
  resp = {| status := 200; body := Stream "image/png" png |}
  ∧ r w' !! tile_key zoom z row col = Some png.
Proof.
  intros Hk Hget Henc. rewrite edge_get_tile_run. simpl.
  assert (Hrun : make_my_tile settings png_encode zoom z row col w
                 = (Ok (), {| r := <[tile_key zoom z row col := png]> (r w0);
                              effects := CacheSet (tile_key zoom z row col) png
                                           :: effects w0 |}))
    by (by rewrite make_my_tile_absent, Hget, Henc).
  assert (Hstored :
    r (app_make_tile settings png_encode zoom z row col w).2
      !! tile_key zoom z row col = Some png).
  { unfold app_make_tile. rewrite make_tile_run, Hrun. simpl.
    apply run_prefetch_store_mono; [|simpl; apply lookup_insert_eq].
    destruct (PREFETCH_ADJACENT_Z settings >? 0);
      [apply z_neighbours_funcs | constructor]. }
  by rewrite Hstored.
Qed.

(** ** Prefetch inside the volume *)

(** Extraction returns the same thing in every world. *)
Lemma get_2d_tile_result_any_world (self : AsyncTensorStoreServer)
    col row z zoom v w :
  (get_2d_tile self col row z zoom v).1 = (get_2d_tile self col row z zoom w).1.
Proof.
  destruct (get_2d_tile_frame self col row z zoom) as (x & pre & _ & _ & Hrun).
  by rewrite !Hrun.
Qed.

(** An entry found in the store after a call was there before, or it is
    the entry of the address of the call, missing before, and holds the
    encoding of the tile extracted for that address. *)
Lemma make_my_tile_entry_origin zoom z row col v x v1 k b :
  make_my_tile settings png_encode zoom z row col v = (x, v1) →
  r v1 !! k = Some b →
  r v !! k = Some b
  ∨ (k = tile_key zoom z row col
     ∧ r v !! k = None
     ∧ ∃ tile, (get_2d_tile server col row z zoom v).1 = Ok tile
               ∧ png_encode tile = Ok b).
Proof.
  intros Hrun Hb.
  destruct (r v !! tile_key zoom z row col) as [b0|] eqn:Hk.
  { rewrite make_my_tile_present in Hrun by (rewrite Hk; eauto).
    injection Hrun as _ <-. by left. }
  rewrite make_my_tile_absent in Hrun by done.
  destruct (get_2d_tile server col row z zoom v) as [[tile|e] v0] eqn:Hget;
    pose proof (get_2d_tile_store _ _ _ _ _ _ _ _ Hget) as (Hr & _ & _).
  - destruct (png_encode tile) as [png|e] eqn:Henc.
    + injection Hrun as _ <-. simpl in Hb. rewrite Hr in Hb.
      destruct (decide (k = tile_key zoom z row col)) as [->|Hne].
      * rewrite lookup_insert_eq in Hb. injection Hb as ->.
        right. split_and!; try done. by exists tile.
      * rewrite lookup_insert_ne in Hb by done. by left.
    + injection Hrun as _ <-. rewrite Hr in Hb. by left.
  - injection Hrun as _ <-. rewrite Hr in Hb. by left.
Qed.

Lemma make_my_tile_inside_ok zoom z row col sx sy sz v :
  zoom ∈ TENSORSTORE_SCALE_INDEX settings →
  vol_shape (TENSORSTORE_SPEC settings zoom) = (sx, sy, sz) →
  0 ≤ size → 0 ≤ row → 0 ≤ col →
  col * size < sx → row * size < sy → 0 ≤ z < sz →
  (∀ tile, (get_2d_tile server col row z zoom v).1 = Ok tile →
           is_ok (png_encode tile) = true) →
  (make_my_tile settings png_encode zoom z row col v).1 = Ok ().
Proof.
  intros Hzoom Hshape Hts Hrow Hcol Hx Hy Hz Henc.
  destruct (r v !! tile_key zoom z row col) as [b|] eqn:Hk.
  { by rewrite make_my_tile_present by (rewrite Hk; eauto). }
  rewrite make_my_tile_absent by done.
  destruct (get_2d_tile_inside settings zoom z row col sx sy sz v)
    as (tile & Hget & _); try done.
  rewrite Hget in Henc |- *. specialize (Henc tile eq_refl).
  by destruct (png_encode tile).
Qed.

Lemma run_tasks_all_ok (tasks : list BackgroundTask) w :
  Forall (λ t, bt_func t = make_my_tile settings png_encode
               ∧ ∀ v, (call_task t v).1 = Ok ()) tasks →
  (run_background_tasks tasks w).1 = Ok ()
  ∧ Forall (λ t, let '(a, b, c, d) := bt_args t in
                 is_Some (r (run_background_tasks tasks w).2 !! tile_key a b c d))
           tasks.
Proof.
  intros Htasks. revert w.
  induction Htasks as [|t tasks [Hfunc Hok] Hrest IH]; intros w; [done|].
  simpl. unfold bind.
  specialize (Hok w).
  destruct (call_task t w) as [x w1] eqn:Hcall. simpl in Hok. subst x.
  destruct (IH w1) as [Hrun Hkeys]. split; [done|].
  constructor; [|done].
  unfold call_task in Hcall. destruct (bt_args t) as [[[a b] c] d].
  rewrite Hfunc in Hcall.
  apply make_my_tile_ok_present in Hcall as [png Hpng].
  exists png. apply run_prefetch_store_mono; [|done].
  eapply Forall_impl; [exact Hrest|]. by intros ? [? _].
Qed.

(** Where the entries of the tile addresses come from, relative to the
    world [w0] a request started in: each one was in the store of [w0],
    or was missing there and holds the encoding of the tile extracted
    for its address. *)
Local Abbreviation entries_from w0 v :=
  (∀ zoom z row col b,
     r v !! tile_key zoom z row col = Some b →
     r w0 !! tile_key zoom z row col = Some b
     ∨ (r w0 !! tile_key zoom z row col = None
        ∧ ∃ tile, (get_2d_tile server col row z zoom w0).1 = Ok tile
                  ∧ png_encode tile = Ok b)).

Lemma make_my_tile_entries_from zoom z row col w0 v x v1 :
  make_my_tile settings png_encode zoom z row col v = (x, v1) →
  (∀ k b, r w0 !! k = Some b → r v !! k = Some b) →
  entries_from w0 v → entries_from w0 v1.
Proof.
  intros Hrun Hmono Hfrom zoom' z' row' col' b Hb.
  destruct (make_my_tile_entry_origin _ _ _ _ _ _ _ _ _ Hrun Hb)
    as [Hold|(Hkey & Hnone & tile & Htile & Henc)]; [by apply Hfrom|].
  apply tile_key_eq in Hkey as (-> & -> & -> & ->).
  right. split.
  - destruct (r w0 !! tile_key zoom z row col) as [b0|] eqn:Hw0; [|done].
    apply Hmono in Hw0. congruence.
  - exists tile. split; [|done].
    by rewrite (get_2d_tile_result_any_world _ _ _ _ _ w0 v).
Qed.

Lemma run_prefetch_entries_from (tasks : list BackgroundTask) w0 v :
  Forall (λ t, bt_func t = make_my_tile settings png_encode) tasks →
  (∀ k b, r w0 !! k = Some b → r v !! k = Some b) →
  entries_from w0 v →
  entries_from w0 (run_background_tasks tasks v).2.
Proof.
  intros Htasks. revert v.
  induction Htasks as [|t tasks Ht _ IH]; intros v Hmono Hfrom; [done|].
  simpl. unfold bind.
  destruct (call_task t v) as [x v1] eqn:Hcall.
  unfold call_task in Hcall. destruct (bt_args t) as [[[a b] c] d].
  rewrite Ht in Hcall.
  pose proof (make_my_tile_entries_from _ _ _ _ w0 _ _ _ Hcall Hmono Hfrom)
    as Hfrom1.
  destruct x as [[]|e]; [|done].
  apply IH; [|done].
  intros k b0 Hk. apply Hmono in Hk.
  by apply (make_my_tile_store_mono _ _ _ _ _ _ _ Hcall).
Qed.

(** X17.  When the requested tile lies inside the volume, the slices
    [z - i] and [z + i] exist for every [i] below the prefetch count [k],
    and the encoder accepts the tiles extracted for the slices of the
    window (the requested slice and those from [z - (k - 1)] to
    [z + (k - 1)]), the request answers 200 and leaves every tile of the
    window in the store at that row and column: under a key that was
    there before, the bytes that were there; under a key that was
    missing, the encoding of the tile [get_2d_tile] returns for that
    slice. *)
Theorem prefetch_warms_window zoom z row col sx sy sz w :
  zoom ∈ TENSORSTORE_SCALE_INDEX settings →
  vol_shape (TENSORSTORE_SPEC settings zoom) = (sx, sy, sz) →
  0 ≤ size → 0 ≤ row → 0 ≤ col →
  col * size < sx → row * size < sy → 0 ≤ z < sz →
  (∀ i, 0 ≤ i < PREFETCH_ADJACENT_Z settings → 0 ≤ z - i ∧ z + i < sz) →
  (∀ i tile,
     i = 0 ∨ - PREFETCH_ADJACENT_Z settings < i < PREFETCH_ADJACENT_Z settings →
     (get_2d_tile server col row (z + i) zoom w).1 = Ok tile →
     is_ok (png_encode tile) = true) →
  let '(resp, w') := app_make_tile settings png_encode zoom z row col w in
  resp = {| status := 200; body := JsonNull |}
  ∧ ∀ i,
      i = 0 ∨ - PREFETCH_ADJACENT_Z settings < i < PREFETCH_ADJACENT_Z settings →
      match r w !! tile_key zoom (z + i) row col with
      | Some png => r w' !! tile_key zoom (z + i) row col = Some png
      | None =>
          ∃ tile png,
            (get_2d_tile server col row (z + i) zoom w).1 = Ok tile
            ∧ png_encode tile = Ok png
            ∧ r w' !! tile_key zoom (z + i) row col = Some png
      end.
Proof.
  intros Hzoom Hshape Hts Hrow Hcol Hx Hy Hz Hwin Henc.
  assert (Hslice : ∀ i,
            i = 0 ∨ - PREFETCH_ADJACENT_Z settings < i < PREFETCH_ADJACENT_Z settings →
            ∀ v, (make_my_tile settings png_encode zoom (z + i) row col v).1
                 = Ok ()).
  { intros i Hi v.
    assert (0 ≤ z + i < sz).
    { destruct Hi as [->|Hi]; [lia|].
      destruct (decide (0 ≤ i)).
      - destruct (Hwin i ltac:(lia)). lia.
      - destruct (Hwin (- i) ltac:(lia)). lia. }
    apply (make_my_tile_inside_ok zoom _ row col sx sy sz); try done.
    intros tile Htile. apply (Henc i tile Hi).
    by rewrite (get_2d_tile_result_any_world _ _ _ _ _ w v). }
  unfold app_make_tile. rewrite make_tile_run.
  pose proof (Hslice 0 (or_introl eq_refl) w) as Hreq. rewrite Z.add_0_r in Hreq.
  destruct (make_my_tile settings png_encode zoom z row col w)
    as [x w1] eqn:Hrun. simpl in Hreq. subst x. simpl.
  split; [done|].
  set (tasks := if PREFETCH_ADJACENT_Z settings >? 0
                then [] ++ z_neighbours settings png_encode zoom z row col
                             (PREFETCH_ADJACENT_Z settings)
                else []).
  set (w' := (run_background_tasks tasks w1).2).
  assert (Hfuncs : Forall (λ t, bt_func t = make_my_tile settings png_encode)
                          tasks).
  { subst tasks. destruct (PREFETCH_ADJACENT_Z settings >? 0);
      [apply z_neighbours_funcs | constructor]. }
  assert (Hmono1 : ∀ k b, r w !! k = Some b → r w1 !! k = Some b)
    by apply (make_my_tile_store_mono _ _ _ _ _ _ _ Hrun).
  assert (Hmono : ∀ k b, r w !! k = Some b → r w' !! k = Some b).
  { intros k b Hk. apply run_prefetch_store_mono; [done|]. by apply Hmono1. }
  assert (Hfrom : entries_from w w').
  { apply run_prefetch_entries_from; [done..|].
    apply (make_my_tile_entries_from _ _ _ _ w _ _ _ Hrun); [done|].
    intros ? ? ? ? ? ?. by left. }
  assert (Hpresent : ∀ i,
            i = 0 ∨ - PREFETCH_ADJACENT_Z settings < i < PREFETCH_ADJACENT_Z settings →
            is_Some (r w' !! tile_key zoom (z + i) row col)).
  { assert (Hz0 : is_Some (r w' !! tile_key zoom z row col)).
    { apply make_my_tile_ok_present in Hrun as [png Hpng].
      exists png. by apply run_prefetch_store_mono. }
    intros i [->|Hi]; [by rewrite Z.add_0_r|].
    subst w' tasks.
    destruct (Z.gtb_spec (PREFETCH_ADJACENT_Z settings) 0) as [Hpos|Hneg]; [|lia].
    simpl.
    set (tasks := z_neighbours settings png_encode zoom z row col
                    (PREFETCH_ADJACENT_Z settings)).
    assert (Htasks : Forall (λ t, bt_func t = make_my_tile settings png_encode
                                 ∧ ∀ v, (call_task t v).1 = Ok ()) tasks).
    { apply Forall_forall. intros t Ht.
      apply list_elem_of_In, in_flat_map in Ht as (j & Hj & Ht).
      apply list_elem_of_In, elem_of_seqZ in Hj.
      destruct Ht as [<-|[<-|[]]]; (split; [done|]); intros v;
        unfold call_task; simpl.
      - apply Hslice. lia.
      - replace (z - j) with (z + - j) by lia. apply Hslice. lia. }
    destruct (run_tasks_all_ok tasks w1 Htasks) as [_ Hkeys].
    rewrite Forall_forall in Hkeys.
    assert (Hmem : ∀ j, 0 ≤ j < PREFETCH_ADJACENT_Z settings →
              prefetch_task settings png_encode zoom (z + j) row col ∈ tasks
              ∧ prefetch_task settings png_encode zoom (z - j) row col ∈ tasks).
    { intros j Hj.
      assert (Hin : In j (range (PREFETCH_ADJACENT_Z settings)))
        by (apply list_elem_of_In, elem_of_seqZ; lia).
      split; apply list_elem_of_In, in_flat_map; exists j; simpl; auto. }
    destruct (decide (0 ≤ i)) as [Hnn|Hn].
    - destruct (Hmem i ltac:(lia)) as [Hplus _]. apply (Hkeys _ Hplus).
    - destruct (Hmem (- i) ltac:(lia)) as [_ Hminus].
      replace (z + i) with (z - - i) by lia. apply (Hkeys _ Hminus). }
  intros i Hi.
  destruct (r w !! tile_key zoom (z + i) row col) as [png|] eqn:Hk.
  { by apply Hmono. }
  destruct (Hpresent i Hi) as [png Hpng].
  destruct (Hfrom _ _ _ _ _ Hpng) as [Hold|(_ & tile & Htile & Hencoded)];
    [congruence|].
  by exists tile, png.
Qed.

End CacheProperties.

(** X18.  The option [PREFETCH_HIGHERRES_SCALE_INDEX] changes nothing:
    with it set or not, [make_tile] returns the same tasks and leaves the
    same world, and so does the whole request. *)
Theorem higherres_flag_is_ignored
    (size : Z) (zooms : list Z) (spec : Z → Volume) (k : Z) (flag : bool)
    (png_encode : ndarray → result bytes) zoom z row col bg w :
  let with_flag (b : bool) :=
    {| TILE_SIZE := size;
       TENSORSTORE_SCALE_INDEX := zooms;
       TENSORSTORE_SPEC := spec;
       PREFETCH_ADJACENT_Z := k;
       PREFETCH_HIGHERRES_SCALE_INDEX := b |} in
  (make_tile (with_flag flag) png_encode row col z zoom bg w).1
    = (make_tile (with_flag false) png_encode row col z zoom bg w).1
  ∧ (make_tile (with_flag flag) png_encode row col z zoom bg w).2
    = (make_tile (with_flag false) png_encode row col z zoom bg w).2
  ∧ app_make_tile (with_flag flag) png_encode zoom z row col w
    = app_make_tile (with_flag false) png_encode zoom z row col w.
Proof.
  intros with_flag. destruct flag; [|done].
  assert (Hmake : ∀ bg',
            make_tile (with_flag true) png_encode row col z zoom bg' w
            = make_tile (with_flag false) png_encode row col z zoom bg' w).
  { intros bg'. rewrite !make_tile_run. reflexivity. }
  split_and!; [by rewrite Hmake | by rewrite Hmake |].
  unfold app_make_tile. rewrite Hmake.
  reflexivity.
Qed.

(** * The further properties on the sample deployments *)

Lemma init_handles_consistent_witness :
  let self :=
    AsyncTensorStoreServer_init (TENSORSTORE_SPEC sample_settings) [0; 1; 0] 4 in
  is_Some (dataset_3d self !! 1)
  ∧ shapes self !! 1 = vol_shape <$> dataset_3d self !! 1
  ∧ ¬ is_Some (dataset_3d self !! 2).
Proof.
  intros self.
  destruct (init_handles_consistent (TENSORSTORE_SPEC sample_settings)
              [0; 1; 0] 4 1) as (_ & Hin & Hshape & _).
  destruct (init_handles_consistent (TENSORSTORE_SPEC sample_settings)
              [0; 1; 0] 4 2) as (_ & Hout & _).
  split; [|split; [exact Hshape|]].
  - apply Hin. apply list_elem_of_further, list_elem_of_here.
  - intros H%Hout. apply list_elem_of_In in H. simpl in H.
    destruct H as [H|[H|[H|[]]]]; discriminate H.
Defined.

Lemma unconfigured_zoom_tile_request_witness :
  get_2d_tile (tile_server sample_settings) 0 0 0 2 empty_world
  = (Raise (KeyError 2), empty_world)
  ∧ app_make_tile sample_settings sample_encode 2 0 0 0 empty_world
    = ({| status := 404; body := JsonDetail (pretty 2) |}, empty_world).
Proof.
  destruct (unconfigured_zoom_tile_request sample_settings sample_encode
              2 0 0 0 empty_world) as (Hget & Hmiss).
  - intros H. apply list_elem_of_In in H. simpl in H.
    destruct H as [H|[H|[]]]; discriminate H.
  - split; [exact Hget|]. apply Hmiss. vm_compute. reflexivity.
Defined.

Lemma corner_on_edge_raises_witness :
  get_2d_tile (tile_server sample_settings_five) 2 0 1 0 empty_world
  = (Raise (ValueError ("Tile out of x bounds: Request " +:+ pretty (2 * 5)
                          +:+ " larger than " +:+ pretty 10 +:+ "]")),
     empty_world)
  ∧ get_2d_tile (tile_server sample_settings_five) 1 2 1 0 empty_world
    = (Raise (ValueError ("Tile out of y bounds: Request " +:+ pretty (2 * 5)
                            +:+ " larger than " +:+ pretty 10 +:+ "]")),
       empty_world).
Proof.
  split.
  - destruct (corner_on_edge_raises sample_settings_five 0 1 0 2 10 10 4
                empty_world) as (Hx & _).
    + apply list_elem_of_here.
    + reflexivity.
    + lia.
    + apply Hx; simpl; lia.
  - destruct (corner_on_edge_raises sample_settings_five 0 1 2 1 10 10 4
                empty_world) as (_ & Hy).
    + apply list_elem_of_here.
    + reflexivity.
    + lia.
    + apply Hy; simpl; lia.
Defined.

Lemma get_2d_tile_succeeds_iff_witness :
  (is_ok (get_2d_tile (tile_server sample_settings) 2 2 3 0 empty_world).1 = true
   ↔ (2 * 4 > 10 ∨ 2 * 4 > 10) ∨ (0 ≤ 3 < 4 ∧ 2 * 4 < 10 ∧ 2 * 4 < 10))
  ∧ ¬ (is_ok (get_2d_tile (tile_server sample_settings) 2 2 4 0 empty_world).1
       = true).
Proof.
  split.
  - apply (get_2d_tile_succeeds_iff sample_settings 0 3 2 2 10 10 4 empty_world).
    + apply list_elem_of_here.
    + reflexivity.
    + simpl; lia.
    + lia.
    + lia.
  - intros H.
    apply (get_2d_tile_succeeds_iff sample_settings 0 4 2 2 10 10 4 empty_world)
      in H.
    + simpl in H. lia.
    + apply list_elem_of_here.
    + reflexivity.
    + simpl; lia.
    + lia.
    + lia.
Defined.

Lemma returned_tile_within_tile_size_witness :
  ∃ tile w1,
    get_2d_tile (tile_server sample_settings) 2 0 3 0 empty_world = (Ok tile, w1)
    ∧ nd_shape tile = (4, 2)
    ∧ 0 ≤ (nd_shape tile).2 ≤ 4
    ∧ length (nd_data tile) = Z.to_nat (nd_shape tile).1.
Proof.
  destruct (get_2d_tile (tile_server sample_settings) 2 0 3 0 empty_world)
    as [[tile|e] w1] eqn:Hget; [|vm_compute in Hget; discriminate Hget].
  destruct (returned_tile_within_tile_size (tile_server sample_settings)
              2 0 3 0 empty_world tile w1 Hget) as (_ & Hcols & Hrows & _).
  exists tile, w1. split; [reflexivity|].
  split; [vm_compute in Hget; by injection Hget as <- _|].
  split; [exact Hcols | exact Hrows].
Defined.

Lemma get_2d_tile_reads_at_most_once_witness :
  ∃ x w1,
    get_2d_tile (tile_server sample_settings) 2 0 3 0 warm_world = (x, w1)
    ∧ r w1 = r warm_world
    ∧ cache_sets (tile_key 0 3 0 2) w1 = cache_sets (tile_key 0 3 0 2) warm_world.
Proof.
  destruct (get_2d_tile (tile_server sample_settings) 2 0 3 0 warm_world)
    as [x w1] eqn:Hget.
  destruct (get_2d_tile_reads_at_most_once (tile_server sample_settings)
              2 0 3 0 warm_world x w1 Hget) as (Hr & Hsets & _).
  exists x, w1. split; [reflexivity|]. split; [exact Hr | apply Hsets].
Defined.

Lemma every_voxel_is_in_its_tile_witness :
  ∃ tile,
    (get_2d_tile (tile_server sample_settings) (9 `div` 4) (6 `div` 4) 3 0
       empty_world).1 = Ok tile
    ∧ nd_get tile (6 `mod` 4) (9 `mod` 4) = Some (voxel sample_volume 9 6 3).
Proof.
  apply (every_voxel_is_in_its_tile sample_settings 0 9 6 3 10 10 4 empty_world).
  - apply list_elem_of_here.
  - reflexivity.
  - simpl; lia.
  - lia.
  - lia.
  - lia.
Defined.

Lemma tile_key_injective_witness :
  tile_key 1 23 4 5 ≠ tile_key 12 3 4 5
  ∧ tile_key 0 (-1) 2 3 ≠ tile_key 0 1 2 3.
Proof.
  split; intros H.
  - apply (tile_key_injective 1 23 4 5 12 3 4 5) in H. discriminate H.
  - apply (tile_key_injective 0 (-1) 2 3 0 1 2 3) in H. discriminate H.
Defined.

Lemma make_my_tile_keeps_other_entries_witness :
  ∃ x w1,
    make_my_tile sample_settings sample_encode 0 3 0 0 warm_world = (x, w1)
    ∧ r w1 !! tile_key 0 7 0 0 = r warm_world !! tile_key 0 7 0 0
    ∧ r w1 !! tile_key 0 7 0 0 = Some [Byte.x89; Byte.x50].
Proof.
  destruct (make_my_tile sample_settings sample_encode 0 3 0 0 warm_world)
    as [x w1] eqn:Hrun.
  destruct (make_my_tile_keeps_other_entries sample_settings sample_encode
              0 3 0 0 warm_world x w1 Hrun) as (Hkeep & Hother).
  exists x, w1. split; [reflexivity|]. split.
  - apply Hother. discriminate.
  - apply Hkeep. vm_compute. reflexivity.
Defined.

Lemma make_my_tile_ok_iff_key_present_witness :
  ∃ x w1,
    make_my_tile sample_settings sample_encode 0 7 0 0 empty_world = (x, w1)
    ∧ (x = Ok () ↔ is_Some (r w1 !! tile_key 0 7 0 0))
    ∧ x ≠ Ok ().
Proof.
  destruct (make_my_tile sample_settings sample_encode 0 7 0 0 empty_world)
    as [x w1] eqn:Hrun.
  exists x, w1. split; [reflexivity|]. split.
  - exact (make_my_tile_ok_iff_key_present sample_settings sample_encode
             0 7 0 0 empty_world x w1 Hrun).
  - vm_compute in Hrun. injection Hrun as <- _. discriminate.
Defined.

Lemma make_my_tile_effects_witness :
  ∃ x w1,
    make_my_tile sample_settings sample_encode 0 3 0 0 empty_world = (x, w1)
    ∧ (effects w1 = effects empty_world
       ∨ (∃ x0 x1 y0 y1,
            is_ok x = false
            ∧ effects w1 = VolumeRead 0 x0 x1 y0 y1 3 :: effects empty_world)
       ∨ (∃ png,
            x = Ok ()
            ∧ r empty_world !! tile_key 0 3 0 0 = None
            ∧ r w1 = <[tile_key 0 3 0 0 := png]> (r empty_world)
            ∧ (effects w1 = CacheSet (tile_key 0 3 0 0) png :: effects empty_world
               ∨ ∃ x0 x1 y0 y1,
                   effects w1 = CacheSet (tile_key 0 3 0 0) png
                                  :: VolumeRead 0 x0 x1 y0 y1 3
                                  :: effects empty_world))).
Proof.
  destruct (make_my_tile sample_settings sample_encode 0 3 0 0 empty_world)
    as [x w1] eqn:Hrun.
  exists x, w1. split; [reflexivity|].
  exact (make_my_tile_effects sample_settings sample_encode
           0 3 0 0 empty_world x w1 Hrun).
Defined.

Lemma prefetch_needs_count_above_one_witness :
  (app_make_tile sample_settings_one sample_encode 0 1 0 0 empty_world).2
  = (make_my_tile sample_settings_one sample_encode 0 1 0 0 empty_world).2.
Proof.
  destruct (prefetch_needs_count_above_one sample_settings_one sample_encode
              0 1 0 0 empty_world) as (Hworld & _).
  - simpl; lia.
  - exact Hworld.
Defined.

(** With a count of 2 the neighbours at distance 1 are prefetched; with
    a count of 1 none is. *)
Example prefetch_count_two_and_one :
  let two := r (app_make_tile sample_settings sample_encode 0 1 0 0 empty_world).2 in
  let one :=
    r (app_make_tile sample_settings_one sample_encode 0 1 0 0 empty_world).2 in
  (size two, bool_decide (is_Some (two !! tile_key 0 0 0 0)),
   bool_decide (is_Some (two !! tile_key 0 2 0 0)))
  = (3%nat, true, true)
  ∧ (size one, bool_decide (is_Some (one !! tile_key 0 1 0 0))) = (1%nat, true).
Proof. vm_compute. done. Qed.

Lemma request_keeps_existing_entries_witness :
  r (app_make_tile sample_settings sample_encode 0 3 0 0 warm_world).2
    !! tile_key 0 7 0 0 = Some [Byte.x89; Byte.x50]
  ∧ r (edge_get_tile sample_settings sample_encode 0 3 0 0 warm_world).2
      !! tile_key 0 7 0 0 = Some [Byte.x89; Byte.x50].
Proof.
  apply (request_keeps_existing_entries sample_settings sample_encode
           0 3 0 0 warm_world).
  vm_compute. reflexivity.
Defined.

Lemma edge_always_answers_200_witness :
  status (edge_get_tile sample_settings sample_encode 2 0 0 0 empty_world).1
  = 200.
Proof.
  pose proof (edge_always_answers_200 sample_settings sample_encode
                2 0 0 0 empty_world) as H.
  destruct (edge_get_tile sample_settings sample_encode 2 0 0 0 empty_world)
    as [resp w']. destruct H as (_ & H & _). exact H.
Defined.

Lemma edge_serves_cached_bytes_witness :
  (edge_get_tile sample_settings sample_encode 0 7 0 0 warm_world).1
  = {| status := 200; body := Stream "image/png" [Byte.x89; Byte.x50] |}.
Proof.
  pose proof (edge_serves_cached_bytes sample_settings sample_encode
                0 7 0 0 warm_world [Byte.x89; Byte.x50]) as H.
  destruct (edge_get_tile sample_settings sample_encode 0 7 0 0 warm_world)
    as [resp w']. destruct H as (H & _); [vm_compute; reflexivity|]. exact H.
Defined.

Lemma edge_serves_encoded_tile_witness :
  ∃ tile png,
    (get_2d_tile (tile_server sample_settings) 2 2 3 0 empty_world).1 = Ok tile
    ∧ sample_encode tile = Ok png
    ∧ (edge_get_tile sample_settings sample_encode 0 3 2 2 empty_world).1
      = {| status := 200; body := Stream "image/png" png |}.
Proof.
  destruct (get_2d_tile (tile_server sample_settings) 2 2 3 0 empty_world)
    as [[tile|e] w0] eqn:Hget; [|vm_compute in Hget; discriminate Hget].
  destruct (sample_encode tile) as [png|e] eqn:Henc.
  2: { vm_compute in Hget. injection Hget as <- _.
       vm_compute in Henc. discriminate Henc. }
  pose proof (edge_serves_encoded_tile sample_settings sample_encode
                0 3 2 2 empty_world tile w0 png) as H.
  exists tile, png. split; [reflexivity|]. split; [exact Henc|].
  destruct (edge_get_tile sample_settings sample_encode 0 3 2 2 empty_world)
    as [resp w'].
  destruct H as (H & _); [vm_compute; reflexivity | exact Hget | exact Henc |].
  exact H.
Defined.

Lemma prefetch_warms_window_witness :
  let w' := (app_make_tile sample_settings sample_encode 0 1 0 0 empty_world).2 in
  (∃ tile png,
     (get_2d_tile (tile_server sample_settings) 0 0 (1 + -1) 0 empty_world).1
     = Ok tile
     ∧ sample_encode tile = Ok png
     ∧ r w' !! tile_key 0 (1 + -1) 0 0 = Some png)
  ∧ (∃ tile png,
       (get_2d_tile (tile_server sample_settings) 0 0 (1 + 1) 0 empty_world).1
       = Ok tile
       ∧ sample_encode tile = Ok png
       ∧ r w' !! tile_key 0 (1 + 1) 0 0 = Some png).
Proof.
  intros w'. subst w'.
  pose proof (prefetch_warms_window sample_settings sample_encode
                0 1 0 0 10 10 4 empty_world) as H.
  destruct (app_make_tile sample_settings sample_encode 0 1 0 0 empty_world)
    as [resp w'].
  destruct H as (_ & Hwin).
  - apply list_elem_of_here.
  - reflexivity.
  - simpl; lia.
  - lia.
  - lia.
  - simpl; lia.
  - simpl; lia.
  - lia.
  - simpl. intros j Hj. lia.
  - simpl. intros j tile Hj Htile.
    assert (Hcases : j = -1 ∨ j = 0 ∨ j = 1) by lia.
    destruct Hcases as [-> | [-> | ->]];
      vm_compute in Htile; injection Htile as <-; reflexivity.
  - split.
    + pose proof (Hwin (-1) ltac:(simpl; lia)) as Hslice.
      assert (Hmiss : r empty_world !! tile_key 0 (1 + -1) 0 0 = None)
        by apply lookup_empty.
      rewrite Hmiss in Hslice. exact Hslice.
    + pose proof (Hwin 1 ltac:(simpl; lia)) as Hslice.
      assert (Hmiss : r empty_world !! tile_key 0 (1 + 1) 0 0 = None)
        by apply lookup_empty.
      rewrite Hmiss in Hslice. exact Hslice.
Defined.

Lemma higherres_flag_is_ignored_witness :
  app_make_tile sample_settings_one sample_encode 0 1 0 0 empty_world
  = app_make_tile
      {| TILE_SIZE := 4;
         TENSORSTORE_SCALE_INDEX := [0; 1];
         TENSORSTORE_SPEC := λ zoom, if zoom =? 0 then sample_volume
                                     else sample_volume_u64;
         PREFETCH_ADJACENT_Z := 1;
         PREFETCH_HIGHERRES_SCALE_INDEX := false |}
      sample_encode 0 1 0 0 empty_world.
Proof.
  destruct (higherres_flag_is_ignored 4 [0; 1]
              (λ zoom, if zoom =? 0 then sample_volume else sample_volume_u64)
              1 true sample_encode 0 1 0 0 [] empty_world) as (_ & _ & H).
  exact H.
Defined.
